(** * Meeting Usefulness AI: feedback aggregation, suggestion rules, scoring

    A shallow embedding of the decision logic of the repository:

    - [Js]: the fragment of JavaScript values the code inspects
      (truthiness, property reads, strict equality with a string);
    - [Feedback]: the [FeedbackCollection] class of
      [meeting-usefulness-feedback.txt]: [scheduleFeedback],
      [submitFeedback], [getAggregatedFeedback] and
      [generateImprovementSuggestions], as computations in a small state
      and exception monad over the object's fields;
    - [Scoring]: the meeting scorer and calendar evaluator.

    JavaScript numbers are embedded as exact rationals ([Q]) and counters
    as [nat]; IEEE-754 rounding is not part of the model. The one
    computation whose result depends on rounding, the running sum behind
    [averageParticipation], is also given in binary64 ([Doubles]). *)

From Stdlib Require Import QArith Lqa Ascii String.
From Stdlib Require PrimFloat Uint63.
From stdpp Require Import gmap strings list.

Local Open Scope Q_scope.

(** ** Rational helpers *)

(** [x < y] on numbers, as a boolean. *)
Definition Qltb (x y : Q) : bool := (Qnum x * QDen y <? Qnum y * QDen x)%Z.

(** A counter read as a number. *)
Definition Qnat (n : nat) : Q := inject_Z (Z.of_nat n).

#[global] Instance Qlt_decision (x y : Q) : Decision (x < y) :=
  Z_lt_dec (Qnum x * QDen y) (Qnum y * QDen x).

(** ** JavaScript values *)

Module Js.

#[warnings="-register-all"] Inductive value : Type :=
| Undefined
| Null
| Bool (b : bool)
| Num (q : Q)
| Str (s : string)
| Obj (props : list (string * value)).

(** Outcome of an expression that may throw. *)
Inductive result (A : Type) : Type :=
| Ok (a : A)
| Throw (msg : string).
Arguments Ok {A} a.
Arguments Throw {A} msg.

#[global] Instance result_ret : MRet result := fun A a => Ok a.
#[global] Instance result_bind : MBind result := fun A B f r =>
  match r with
  | Ok a => f a
  | Throw msg => Throw msg
  end.

(** ToBoolean. *)
Definition truthy (v : value) : bool :=
  match v with
  | Undefined | Null => false
  | Bool b => b
  | Num q => negb (Qnum q =? 0)%Z
  | Str s => negb (String.eqb s "")
  | Obj _ => true
  end.

(** Own-property lookup in an object literal. *)
Fixpoint lookup_prop (k : string) (props : list (string * value)) : option value :=
  match props with
  | [] => None
  | (k', v) :: rest => if String.eqb k k' then Some v else lookup_prop k rest
  end.

(** [v.k] for a key [k] that no built-in prototype defines: a
    [TypeError] on [undefined] and [null], [undefined] on the other
    primitives and on objects without the property. *)
Definition get (v : value) (k : string) : result value :=
  match v with
  | Undefined | Null => Throw "TypeError"
  | Obj props => Ok (default Undefined (lookup_prop k props))
  | Bool _ | Num _ | Str _ => Ok Undefined
  end.

(** [v === s] for a string [s]. *)
Definition strict_eq_str (v : value) (s : string) : bool :=
  match v with
  | Str s' => String.eqb s' s
  | _ => false
  end.

(** [a || b]. *)
Definition or (a b : value) : value := if truthy a then a else b.

End Js.

Import Js.

(** ** The feedback collection *)

Module Feedback.

(** *** Data *)

(** One survey question of a template. *)
Record Question := {
  q_id : string;
  q_text : string;
  q_type : string;
  q_options : list string
}.

Record Template := {
  t_name : string;
  t_questions : list Question
}.

(** The answers of one submission, typed per question of the standard
    template: a boolean answer is [None] when the respondent left it out,
    [participation] is a percentage, [meeting_length] the chosen option. *)
Record ResponseData := {
  decision_made : option bool;
  action_items : option bool;
  participation : option Q;
  could_be_async : option bool;
  meeting_length : option string
}.

(** An entry of [responses]: [{ timestamp, data }]. *)
Record Response := {
  timestamp : Z;
  data : ResponseData
}.

(** An entry of [feedbackDatabase], with the fields [scheduleFeedback]
    gives it. *)
Record FeedbackRecord := {
  fb_id : string;
  meetingId : Js.value;
  meetingTitle : Js.value;
  scheduledTime : Js.value;
  template : string;
  status : string;
  responses : list Response
}.

(** A value of [lengthRatings]: a counter, or [NaN] once an absent key
    was incremented. *)
Inductive rating : Type :=
| Count (n : nat)
| NaN.

(** The object [getAggregatedFeedback] returns; [aggTitle] is its
    [meetingTitle] field. *)
Record AggregatedFeedback := {
  recurringMeetingId : string;
  aggTitle : Js.value;
  totalResponses : nat;
  decisionsRate : Q;
  actionItemsRate : Q;
  averageParticipation : Q;
  couldBeAsyncRate : Q;
  lengthRatings : gmap string rating
}.

Record Suggestion := {
  area : string;
  suggestion : string;
  priority : string
}.

(** The fields of a [FeedbackCollection] instance. *)
Record FeedbackCollection := {
  feedbackDatabase : list FeedbackRecord;
  surveyTemplates : gmap string Template;
  notificationChannels : gmap string bool
}.

(** *** Methods as state transformers that may throw *)

Definition M (A : Type) : Type :=
  FeedbackCollection -> Js.result A * FeedbackCollection.

#[global] Instance M_ret : MRet M := fun A a this => (Ok a, this).
#[global] Instance M_bind : MBind M := fun A B f m this =>
  match m this with
  | (Ok a, this') => f a this'
  | (Throw msg, this') => (Throw msg, this')
  end.

(** Read a field of [this]. *)
Definition gets {A} (f : FeedbackCollection -> A) : M A :=
  fun this => (Ok (f this), this).

(** The instance with another [feedbackDatabase]. *)
Definition set_database (db : list FeedbackRecord) (this : FeedbackCollection)
    : FeedbackCollection :=
  {| feedbackDatabase := db;
     surveyTemplates := surveyTemplates this;
     notificationChannels := notificationChannels this |}.

(** Write [this.feedbackDatabase]. *)
Definition put_database (db : list FeedbackRecord) : M unit :=
  fun this => (Ok tt, set_database db this).

(** [throw new Error(msg)]. *)
Definition throw {A} (msg : string) : M A := fun this => (Throw msg, this).

(** Lift an expression that does not touch [this]. *)
Definition lift {A} (r : Js.result A) : M A := fun this => (r, this).

(** [try { body } catch (error) { handler }]: writes made before the
    exception stay. *)
Definition try_catch {A} (body : M A) (handler : string -> M A) : M A :=
  fun this =>
    match body this with
    | (Ok a, this') => (Ok a, this')
    | (Throw msg, this') => handler msg this'
    end.

(** *** Constructor and default templates *)

(** [new FeedbackCollection()]. *)
Definition new_collection : FeedbackCollection :=
  {| feedbackDatabase := [];
     surveyTemplates := ∅;
     notificationChannels :=
       <["email" := true]> (<["slack" := false]>
         (<["teams" := false]> (<["calendar" := true]> ∅))) |}.

Definition boolean_question (id text : string) : Question :=
  {| q_id := id; q_text := text; q_type := "boolean"; q_options := [] |}.

Definition options_question (id text : string) (options : list string) : Question :=
  {| q_id := id; q_text := text; q_type := "options"; q_options := options |}.

Definition q_decision_made : Question :=
  boolean_question "decision_made" "Were any decisions made in this meeting?".
Definition q_action_items : Question :=
  boolean_question "action_items" "Were specific action items assigned to individuals?".
Definition q_participation : Question :=
  {| q_id := "participation";
     q_text := "What percentage of attendees actively participated?";
     q_type := "percentage"; q_options := [] |}.
Definition q_could_be_async : Question :=
  boolean_question "could_be_async" "Could this meeting have been handled asynchronously?".
Definition q_meeting_length : Question :=
  options_question "meeting_length" "Was the meeting length appropriate?"
    ["Too short"; "Just right"; "Too long"].

Definition standard_template : Template :=
  {| t_name := "Standard Meeting Feedback";
     t_questions := [q_decision_made; q_action_items; q_participation;
                     q_could_be_async; q_meeting_length] |}.

Definition brief_template : Template :=
  {| t_name := "Quick Meeting Feedback";
     t_questions :=
       [boolean_question "useful" "Was this meeting useful?";
        boolean_question "could_be_shorter" "Could this meeting have been shorter?";
        q_could_be_async] |}.

Definition detailed_template : Template :=
  {| t_name := "Detailed Meeting Feedback";
     t_questions :=
       [q_decision_made; q_action_items; q_participation; q_could_be_async;
        q_meeting_length;
        options_question "agenda_followed" "Was the agenda followed effectively?"
          ["Not at all"; "Somewhat"; "Mostly"; "Completely"; "No agenda provided"];
        options_question "preparation" "Were participants adequately prepared?"
          ["Not prepared"; "Somewhat prepared"; "Well prepared"];
        {| q_id := "feedback";
           q_text := "Any additional comments about this meeting?";
           q_type := "text"; q_options := [] |}] |}.

(** [createDefaultTemplates()]: three writes to [this.surveyTemplates]. *)
Definition createDefaultTemplates : M unit :=
  fun this =>
    (Ok tt,
     {| feedbackDatabase := feedbackDatabase this;
        surveyTemplates :=
          <["detailed" := detailed_template]>
            (<["brief" := brief_template]>
               (<["standard" := standard_template]> (surveyTemplates this)));
        notificationChannels := notificationChannels this |}).

(** *** Strings *)

Definition lower_ascii (c : ascii) : ascii :=
  let n := nat_of_ascii c in
  if (65 <=? n)%nat && (n <=? 90)%nat then ascii_of_nat (n + 32) else c.

(** [s.toLowerCase()] on ASCII text. *)
Fixpoint toLowerCase (s : string) : string :=
  match s with
  | EmptyString => EmptyString
  | String c rest => String (lower_ascii c) (toLowerCase rest)
  end.

(** *** scheduleFeedback *)

(** [Array.prototype.findIndex]; [None] stands for [-1]. *)
Fixpoint findIndex {A} (p : A -> bool) (l : list A) : option nat :=
  match l with
  | [] => None
  | x :: rest => if p x then Some 0%nat else S <$> findIndex p rest
  end.

(** [scheduleFeedback(meeting, templateName)]. [rnd] is the text drawn
    from [Math.random()] and [now] the reading of [Date.now()]. The new
    record is pushed on [feedbackDatabase] and returned; any exception
    (unknown template, [meeting] not an object) yields [null]. *)
Definition scheduleFeedback (meeting : Js.value) (templateName : string)
    (rnd : string) (now : Z) : M (option FeedbackRecord) :=
  try_catch
    (templates ← gets surveyTemplates;
     match templates !! toLowerCase templateName with
     | None => throw ("Template " +:+ templateName +:+ " not found")
     | Some _ =>
         let feedbackId := "fb-" +:+ rnd in
         id ← lift (Js.get meeting "id");
         title ← lift (Js.get meeting "title");
         endTime ← lift (Js.get meeting "endTime");
         let scheduledFeedback :=
           {| fb_id := feedbackId;
              meetingId := Js.or id Null;
              meetingTitle := title;
              scheduledTime := Js.or endTime (Num (inject_Z (now + 3600000)));
              template := templateName;
              status := "scheduled";
              responses := [] |} in
         db ← gets feedbackDatabase;
         put_database (db ++ [scheduledFeedback]);;
         mret (Some scheduledFeedback)
     end)
    (fun _ => mret None).

(** *** submitFeedback *)

(** The two writes of [submitFeedback] on the record found. *)
Definition add_response (responses0 : ResponseData) (now : Z)
    (fb : FeedbackRecord) : FeedbackRecord :=
  {| fb_id := fb_id fb;
     meetingId := meetingId fb;
     meetingTitle := meetingTitle fb;
     scheduledTime := scheduledTime fb;
     template := template fb;
     status := "completed";
     responses := responses fb ++ [{| timestamp := now; data := responses0 |}] |}.

(** [submitFeedback(feedbackId, responses)]; [now] is the timestamp. *)
Definition submitFeedback (feedbackId : string) (responses0 : ResponseData)
    (now : Z) : M bool :=
  try_catch
    (db ← gets feedbackDatabase;
     match findIndex (fun fb => String.eqb (fb_id fb) feedbackId) db with
     | None => throw ("Feedback with ID " +:+ feedbackId +:+ " not found")
     | Some feedbackIndex =>
         put_database (alter (add_response responses0 now) feedbackIndex db);;
         mret true
     end)
    (fun _ => mret false).

(** *** getAggregatedFeedback *)

(** The callback of [feedbackDatabase.filter]: [fb.meetingId &&
    fb.meetingId.recurringMeetingId === recurringMeetingId && fb.status
    === 'completed' && fb.responses.length > 0]. The property read is
    reached only when [fb.meetingId] is truthy. *)
Definition matches (rid : string) (fb : FeedbackRecord) : Js.result bool :=
  if Js.truthy (meetingId fb) then
    v ← Js.get (meetingId fb) "recurringMeetingId";
    mret (Js.strict_eq_str v rid
          && String.eqb (status fb) "completed"
          && (0 <? length (responses fb))%nat)
  else mret false.

(** [Array.prototype.filter] with a callback that may throw. *)
Fixpoint filterR {A} (p : A -> Js.result bool) (l : list A) : Js.result (list A) :=
  match l with
  | [] => mret []
  | x :: rest =>
      keep ← p x;
      kept ← filterR p rest;
      mret (if keep : bool then x :: kept else kept)
  end.

(** [lengthRatings[k]++]: an absent key reads [undefined], whose
    increment is [NaN] (keys inherited from [Object.prototype] are not
    told apart from absent ones). *)
Definition incr (k : string) (m : gmap string rating) : gmap string rating :=
  <[k := match m !! k with
         | Some (Count n) => Count (S n)
         | Some NaN | None => NaN
         end]> m.

(** The variables the two nested [forEach] loops update: the
    [aggregated] object (its [totalResponses] and [lengthRatings]) and the
    four local accumulators. *)
Record Loop := {
  l_totalResponses : nat;
  l_lengthRatings : gmap string rating;
  decisionCount : nat;
  actionItemsCount : nat;
  participationSum : Q;
  asyncCount : nat
}.

Definition truthy_bool (a : option bool) : bool := default false a.

(** A number answer is truthy unless it is zero. *)
Definition truthy_num (a : option Q) : bool :=
  match a with
  | Some q => negb (Qnum q =? 0)%Z
  | None => false
  end.

(** A string answer is truthy unless it is empty. *)
Definition truthy_str (a : option string) : bool :=
  match a with
  | Some s => negb (String.eqb s "")
  | None => false
  end.

(** The body of the inner [forEach]. *)
Definition process_response (st : Loop) (response : Response) : Loop :=
  let d := data response in
  {| l_totalResponses := S (l_totalResponses st);
     decisionCount :=
       if truthy_bool (decision_made d) then S (decisionCount st)
       else decisionCount st;
     actionItemsCount :=
       if truthy_bool (action_items d) then S (actionItemsCount st)
       else actionItemsCount st;
     participationSum :=
       if truthy_num (participation d)
       then participationSum st + default 0 (participation d)
       else participationSum st;
     asyncCount :=
       if truthy_bool (could_be_async d) then S (asyncCount st)
       else asyncCount st;
     l_lengthRatings :=
       if truthy_str (meeting_length d)
       then incr (default "" (meeting_length d)) (l_lengthRatings st)
       else l_lengthRatings st |}.

(** The body of the outer [forEach]. *)
Definition process_feedback (st : Loop) (feedback : FeedbackRecord) : Loop :=
  fold_left process_response (responses feedback) st.

Definition initial_ratings : gmap string rating :=
  <["Too short" := Count 0]> (<["Just right" := Count 0]> (<["Too long" := Count 0]> ∅)).

Definition initial_loop : Loop :=
  {| l_totalResponses := 0;
     l_lengthRatings := initial_ratings;
     decisionCount := 0;
     actionItemsCount := 0;
     participationSum := 0;
     asyncCount := 0 |}.

(** The statements of the [try] block once [feedbackItems] is known. *)
Definition aggregate_items (rid : string) (feedbackItems : list FeedbackRecord)
    : option AggregatedFeedback :=
  match feedbackItems with
  | [] => None
  | first :: _ =>
      let st := fold_left process_feedback feedbackItems initial_loop in
      let total := l_totalResponses st in
      (* the four rates keep their initial 0 unless totalResponses > 0 *)
      let rate (sum : Q) : Q :=
        if (0 <? total)%nat then sum / Qnat total else 0 in
      Some {| recurringMeetingId := rid;
              aggTitle := meetingTitle first;
              totalResponses := total;
              decisionsRate := rate (Qnat (decisionCount st));
              actionItemsRate := rate (Qnat (actionItemsCount st));
              averageParticipation := rate (participationSum st);
              couldBeAsyncRate := rate (Qnat (asyncCount st));
              lengthRatings := l_lengthRatings st |}
  end.

(** The [try] block on a given database. *)
Definition aggregate (db : list FeedbackRecord) (rid : string)
    : Js.result (option AggregatedFeedback) :=
  feedbackItems ← filterR (matches rid) db;
  mret (aggregate_items rid feedbackItems).

(** [getAggregatedFeedback(recurringMeetingId)]. *)
Definition getAggregatedFeedback (rid : string) : M (option AggregatedFeedback) :=
  try_catch
    (db ← gets feedbackDatabase;
     lift (aggregate db rid))
    (fun _ => mret None).

(** *** generateImprovementSuggestions *)

(** [suggestions.push(x)]. *)
Definition push {A} (l : list A) (x : A) : list A := l ++ [x].

(** [r > y] for a value read from [lengthRatings]: [undefined] and [NaN]
    compare false with every number. *)
Definition rating_gtb (r : option rating) (y : Q) : bool :=
  match r with
  | Some (Count n) => Qltb y (Qnat n)
  | Some NaN | None => false
  end.

(** [generateImprovementSuggestions(aggregatedFeedback)]; [None] is
    [null]. The body reads its argument only. *)
Definition generateImprovementSuggestions
    (aggregatedFeedback : option AggregatedFeedback) : list Suggestion :=
  match aggregatedFeedback with
  | None => []
  | Some a =>
    if (totalResponses a =? 0)%nat then [] else
    let suggestions := [] in
    let suggestions :=
      if Qltb (decisionsRate a) 0.5 then
        push suggestions
          {| area := "Decision Making";
             suggestion := "Include specific decision points in the meeting agenda and ensure they are addressed";
             priority := if Qltb (decisionsRate a) 0.2 then "high" else "medium" |}
      else suggestions in
    let suggestions :=
      if Qltb (actionItemsRate a) 0.6 then
        push suggestions
          {| area := "Action Items";
             suggestion := "End each meeting with clear action items assigned to specific individuals";
             priority := if Qltb (actionItemsRate a) 0.3 then "high" else "medium" |}
      else suggestions in
    let suggestions :=
      if Qltb (averageParticipation a) 50 then
        push suggestions
          {| area := "Participation";
             suggestion := "Consider reducing the number of participants or use round-robin techniques to ensure everyone contributes";
             priority := if Qltb (averageParticipation a) 30 then "high" else "medium" |}
      else suggestions in
    let suggestions :=
      if Qltb 0.6 (couldBeAsyncRate a) then
        push suggestions
          {| area := "Meeting Format";
             suggestion := "Convert this recurring meeting to an asynchronous format using tools like shared documents or structured chat threads";
             priority := if Qltb 0.8 (couldBeAsyncRate a) then "high" else "medium" |}
      else suggestions in
    let suggestions :=
      if rating_gtb (lengthRatings a !! "Too long") (Qnat (totalResponses a) * 0.5) then
        push suggestions
          {| area := "Meeting Length";
             suggestion := "Reduce the meeting duration and create a more focused agenda";
             priority := "high" |}
      else if rating_gtb (lengthRatings a !! "Too short") (Qnat (totalResponses a) * 0.5) then
        push suggestions
          {| area := "Meeting Length";
             suggestion := "Consider allocating more time to allow for more thorough discussion";
             priority := "medium" |}
      else suggestions in
    suggestions
  end.

(** The method, as a computation on the instance. *)
Definition generateImprovementSuggestions_method
    (aggregatedFeedback : option AggregatedFeedback) : M (list Suggestion) :=
  mret (generateImprovementSuggestions aggregatedFeedback).

(** *** The rule table of the suggestion engine *)

(** [r > y] as a proposition. *)
Definition rating_gt (r : option rating) (y : Q) : Prop :=
  match r with
  | Some (Count n) => y < Qnat n
  | Some NaN | None => False
  end.

#[global] Instance rating_gt_decision r y : Decision (rating_gt r y).
Proof. destruct r as [[n|]|]; simpl; apply _. Defined.

(** One row of the table: at most one suggestion. *)
Definition rule (fires : Prop) `{!Decision fires} (s : Suggestion) : list Suggestion :=
  if decide fires then [s] else [].

Definition level (high : Prop) `{!Decision high} : string :=
  if decide high then "high" else "medium".

Definition R1 (a : AggregatedFeedback) : list Suggestion :=
  rule (decisionsRate a < 0.5)
    {| area := "Decision Making";
       suggestion := "Include specific decision points in the meeting agenda and ensure they are addressed";
       priority := level (decisionsRate a < 0.2) |}.

Definition R2 (a : AggregatedFeedback) : list Suggestion :=
  rule (actionItemsRate a < 0.6)
    {| area := "Action Items";
       suggestion := "End each meeting with clear action items assigned to specific individuals";
       priority := level (actionItemsRate a < 0.3) |}.

Definition R3 (a : AggregatedFeedback) : list Suggestion :=
  rule (averageParticipation a < 50)
    {| area := "Participation";
       suggestion := "Consider reducing the number of participants or use round-robin techniques to ensure everyone contributes";
       priority := level (averageParticipation a < 30) |}.

Definition R4 (a : AggregatedFeedback) : list Suggestion :=
  rule (0.6 < couldBeAsyncRate a)
    {| area := "Meeting Format";
       suggestion := "Convert this recurring meeting to an asynchronous format using tools like shared documents or structured chat threads";
       priority := level (0.8 < couldBeAsyncRate a) |}.

Definition too_long (a : AggregatedFeedback) : Prop :=
  rating_gt (lengthRatings a !! "Too long") (Qnat (totalResponses a) * 0.5).

Definition too_short (a : AggregatedFeedback) : Prop :=
  rating_gt (lengthRatings a !! "Too short") (Qnat (totalResponses a) * 0.5).

Definition R5a (a : AggregatedFeedback) : list Suggestion :=
  rule (too_long a)
    {| area := "Meeting Length";
       suggestion := "Reduce the meeting duration and create a more focused agenda";
       priority := "high" |}.

(** R5b is looked at only when R5a did not fire. *)
Definition R5b (a : AggregatedFeedback) : list Suggestion :=
  rule (~ too_long a /\ too_short a)
    {| area := "Meeting Length";
       suggestion := "Consider allocating more time to allow for more thorough discussion";
       priority := "medium" |}.

(** *** Vocabulary of the aggregation properties *)

(** The recurring-meeting id of a record, read the way the aggregator
    reads it: the [recurringMeetingId] property of the stored
    [meetingId], when that is a string. *)
Definition series_of (fb : FeedbackRecord) : option string :=
  match meetingId fb with
  | Obj props =>
      match lookup_prop "recurringMeetingId" props with
      | Some (Str s) => Some s
      | _ => None
      end
  | _ => None
  end.

(** [meeting.id] of the meeting handed to [scheduleFeedback]; a meeting
    without the field reads [undefined]. *)
Definition meeting_id (meeting : Js.value) : Js.value :=
  match Js.get meeting "id" with
  | Ok v => v
  | Throw _ => Undefined
  end.

(** A value without a [recurringMeetingId] property: a primitive (a
    string, a number, a missing id) or an object that lacks it. *)
Definition no_series (v : Js.value) : Prop :=
  match v with
  | Obj props => lookup_prop "recurringMeetingId" props = None
  | _ => True
  end.

(** The records an aggregation for [rid] is about. *)
Definition considered (rid : string) (fb : FeedbackRecord) : Prop :=
  series_of fb = Some rid /\ status fb = "completed" /\ responses fb <> [].

#[global] Instance considered_decision rid fb : Decision (considered rid fb).
Proof. unfold considered. apply _. Defined.

(** All response entries of a list of records, in order. *)
Definition all_responses (items : list FeedbackRecord) : list Response :=
  concat (map responses items).

(** Number of responses whose answer selected by [f] is truthy. *)
Definition count_truthy (f : ResponseData -> option bool) (rs : list Response) : nat :=
  length (filter (fun r => truthy_bool (f (data r)) = true) rs).

(** The participation values that were supplied. *)
Definition supplied_participation (rs : list Response) : list Q :=
  omap (fun r => participation (data r)) rs.

Definition Qsum (l : list Q) : Q := foldr Qplus 0 l.


(** Number of responses that chose option [k]. *)
Definition count_option (k : string) (rs : list Response) : nat :=
  length (filter (fun r => meeting_length (data r) = Some k) rs).






(** *** Scenarios *)

(** A collection with one completed record of the series rec-123 (two
    submissions), one record of the same series still scheduled, and one
    completed record whose [meetingId] is a plain string. *)
Definition answers_1 : ResponseData :=
  {| decision_made := Some true; action_items := Some false;
     participation := Some 40; could_be_async := None;
     meeting_length := Some "Too long" |}.

Definition answers_2 : ResponseData :=
  {| decision_made := Some false; action_items := Some true;
     participation := None; could_be_async := Some true;
     meeting_length := Some "Just right" |}.

Definition record_1 : FeedbackRecord :=
  {| fb_id := "fb-1";
     meetingId := Obj [("recurringMeetingId", Str "rec-123")];
     meetingTitle := Str "Weekly Team Sync";
     scheduledTime := Num 0;
     template := "standard";
     status := "completed";
     responses := [{| timestamp := 1; data := answers_1 |};
                   {| timestamp := 2; data := answers_2 |}] |}.

Definition record_2 : FeedbackRecord :=
  {| fb_id := "fb-2";
     meetingId := Obj [("recurringMeetingId", Str "rec-123")];
     meetingTitle := Str "Weekly Team Sync";
     scheduledTime := Num 0;
     template := "standard";
     status := "scheduled";
     responses := [] |}.

Definition record_3 : FeedbackRecord :=
  {| fb_id := "fb-3";
     meetingId := Str "meeting-1";
     meetingTitle := Str "Weekly Team Sync";
     scheduledTime := Num 0;
     template := "standard";
     status := "completed";
     responses := [{| timestamp := 3; data := answers_1 |}] |}.

Definition collection_1 : FeedbackCollection :=
  set_database [record_1; record_2; record_3] new_collection.



(** The first meeting of the calendar integration's sample data; its
    [id] is a string and [recurringMeetingId] a field next to it. *)
Definition meeting_1 : Js.value :=
  Obj [("id", Str "meeting-1");
       ("title", Str "Weekly Team Sync");
       ("duration", Num 60);
       ("participants", Num 8);
       ("hasAgenda", Bool true);
       ("recurringMeetingId", Str "rec-123")].

(** A fresh instance after [createDefaultTemplates()]. *)
Definition collection_0 : FeedbackCollection :=
  (createDefaultTemplates new_collection).2.

(** The considered record of [collection_1] next to the record with a
    string id, in another order. *)
Definition collection_2 : FeedbackCollection :=
  set_database [record_3; record_1] new_collection.

(** Scenario C of the suggestion engine. *)
Definition scenario_C : AggregatedFeedback :=
  {| recurringMeetingId := "rec-123";
     aggTitle := Str "Weekly Team Sync";
     totalResponses := 10;
     decisionsRate := 0.1;
     actionItemsRate := 0.9;
     averageParticipation := 25;
     couldBeAsyncRate := 0.9;
     lengthRatings :=
       <["Too long" := Count 6]> (<["Just right" := Count 3]> (<["Too short" := Count 1]> ∅)) |}.

End Feedback.

(** ** Scoring *)

Module Scoring.

(** Modelled from the spec: the meeting record of section 3; the scorer's
    source file (meeting-usefulness-ai.js) is not part of the sources. *)
Record Meeting := {
  title : string;
  duration : Z;
  participantCount : Z;
  expectedSpeakerCount : Z;
  hasAgenda : bool;
  decisionMade : option bool;
  followUpSent : option bool;
  couldBeAsync : bool
}.

(** Modelled from the spec: the weights of section 3; the six factor
    weights are the [SCORE_WEIGHTS] constant shown in README.md, the
    thresholds are the spec's. *)
Record ScoreWeights := {
  DECISION_MADE : Q;
  AGENDA_PROVIDED : Q;
  FOLLOW_UP_SENT : Q;
  COULD_BE_ASYNC : Q;
  PARTICIPATION_RATIO : Q;
  LONG_MEETING_PENALTY : Q;
  longMeetingMinutes : Q;
  highBand : Q;
  mediumBand : Q
}.

(** Modelled from the spec: the default instance (README.md and scenario
    A). The spec gives no default for the two band cut points, which are
    parameters here. *)
Definition SCORE_WEIGHTS (highCut mediumCut : Q) : ScoreWeights :=
  {| DECISION_MADE := 30;
     AGENDA_PROVIDED := 15;
     FOLLOW_UP_SENT := 20;
     COULD_BE_ASYNC := -25;
     PARTICIPATION_RATIO := 20;
     LONG_MEETING_PENALTY := -10;
     longMeetingMinutes := 60;
     highBand := highCut;
     mediumBand := mediumCut |}.

(** Modelled from the spec: the band enumeration of section 3. *)
Inductive Band : Type := high | medium | low.

(** Modelled from the spec: the recommendation enumeration of section 3
    (keep, consider-async, consider-decline). *)
Inductive Recommendation : Type := keep | consider_async | consider_decline.

(** Modelled from the spec: the result of the scorer, section 3. *)
Record MeetingEvaluation := {
  score : Q;
  band : Band;
  contributingFactors : list (string * Q);
  recommendation : Recommendation
}.

(** Modelled from the spec: [ValidationError] with the offending field
    and, in a batch, the position of the offending meeting. *)
Record ValidationError := {
  field : string;
  position : option nat
}.

(** Modelled from the spec: the three rejections of section 4.1. *)
Definition validate (m : Meeting) : option ValidationError :=
  if (duration m <=? 0)%Z then
    Some {| field := "duration"; position := None |}
  else if (participantCount m <? 1)%Z then
    Some {| field := "participantCount"; position := None |}
  else if (participantCount m <? expectedSpeakerCount m)%Z then
    Some {| field := "expectedSpeakerCount"; position := None |}
  else None.

(** Modelled from the spec: a meeting none of the three rejections
    applies to. *)
Definition valid (m : Meeting) : Prop :=
  (0 < duration m)%Z /\ (1 <= participantCount m)%Z
  /\ (expectedSpeakerCount m <= participantCount m)%Z.

(** Modelled from the spec: step 7, clamp to [0, 100]. *)
Definition clamp (x : Q) : Q :=
  if Qltb x 0 then 0 else if Qltb 100 x then 100 else x.

(** Modelled from the spec: step 8; a score equal to a cut point belongs
    to the band of that cut point. *)
Definition classify (w : ScoreWeights) (s : Q) : Band :=
  if Qle_bool (highBand w) s then high
  else if Qle_bool (mediumBand w) s then medium
  else low.

(** Modelled from the spec: the tests [band is low] and [band is high]
    of step 9. *)
Definition is_low (b : Band) : bool :=
  match b with low => true | _ => false end.

Definition is_high (b : Band) : bool :=
  match b with high => true | _ => false end.

(** Modelled from the spec: step 9. *)
Definition recommend (b : Band) (async : bool) : Recommendation :=
  if is_low b && negb async then consider_decline
  else if async && negb (is_high b) then consider_async
  else keep.

(** Modelled from the spec: step 5. *)
Definition participationRatio (m : Meeting) : Q :=
  if (participantCount m =? 0)%Z then 0
  else inject_Z (expectedSpeakerCount m) / inject_Z (participantCount m).

(** Modelled from the spec: steps 1 to 6, one entry per step, in order,
    also when the contribution is zero. *)
Definition factors (m : Meeting) (w : ScoreWeights) : list (string * Q) :=
  [ ("DECISION_MADE", if default false (decisionMade m) then DECISION_MADE w else 0);
    ("AGENDA_PROVIDED", if hasAgenda m then AGENDA_PROVIDED w else 0);
    ("FOLLOW_UP_SENT", if default false (followUpSent m) then FOLLOW_UP_SENT w else 0);
    ("COULD_BE_ASYNC", if couldBeAsync m then COULD_BE_ASYNC w else 0);
    ("PARTICIPATION_RATIO", PARTICIPATION_RATIO w * participationRatio m);
    ("LONG_MEETING_PENALTY",
     if Qltb (longMeetingMinutes w) (inject_Z (duration m))
     then LONG_MEETING_PENALTY w else 0) ].

(** Modelled from the spec: the base score of section 4.1. *)
Definition base : Q := 50.

(** Modelled from the spec: [score(meeting, weights)] of section 4.1
    (named [evaluate] here, [score] being the field of the result). *)
Definition evaluate (m : Meeting) (w : ScoreWeights)
    : ValidationError + MeetingEvaluation :=
  match validate m with
  | Some e => inl e
  | None =>
      let fs := factors m w in
      let total := fold_left (fun acc f => acc + snd f) fs base in
      let s := clamp total in
      let b := classify w s in
      inr {| score := s;
             band := b;
             contributingFactors := fs;
             recommendation := recommend b (couldBeAsync m) |}
  end.

(** Modelled from the spec: the result of the calendar evaluator,
    section 3. *)
Record CalendarSummary := {
  evaluations : list MeetingEvaluation;
  meetingCount : nat;
  totalMinutes : Z;
  averageScore : option Q;
  lowValueMinutes : Z;
  reclaimableMinutes : Z
}.

(** Modelled from the spec: the running sums folded over the batch
    (section 4.2). *)
Record Sums := {
  s_evaluations : list MeetingEvaluation;
  s_count : nat;
  s_minutes : Z;
  s_scores : Q;
  s_low : Z;
  s_reclaimable : Z
}.

(** Modelled from the spec: flagged consider-decline or consider-async. *)
Definition is_reclaimable (r : Recommendation) : bool :=
  match r with keep => false | _ => true end.

(** Modelled from the spec: one step of the fold, section 3's
    definitions of the sums. *)
Definition add_evaluation (acc : Sums) (m : Meeting) (e : MeetingEvaluation) : Sums :=
  {| s_evaluations := s_evaluations acc ++ [e];
     s_count := S (s_count acc);
     s_minutes := s_minutes acc + duration m;
     s_scores := s_scores acc + score e;
     s_low := if is_low (band e) then s_low acc + duration m else s_low acc;
     s_reclaimable :=
       if is_reclaimable (recommendation e)
       then s_reclaimable acc + duration m else s_reclaimable acc |}%Z.

(** Modelled from the spec: the pass of section 4.2 from position [i] on;
    the first rejected meeting ends it with its position attached. *)
Fixpoint evaluateFrom (i : nat) (meetings : list Meeting) (w : ScoreWeights)
    (acc : Sums) : ValidationError + Sums :=
  match meetings with
  | [] => inr acc
  | m :: rest =>
      match evaluate m w with
      | inl e => inl {| field := field e; position := Some i |}
      | inr ev => evaluateFrom (S i) rest w (add_evaluation acc m ev)
      end
  end.

(** Modelled from the spec: [evaluateAll(meetings, weights)]. *)
Definition evaluateAll (meetings : list Meeting) (w : ScoreWeights)
    : ValidationError + CalendarSummary :=
  match evaluateFrom 0 meetings w
          {| s_evaluations := []; s_count := 0; s_minutes := 0;
             s_scores := 0; s_low := 0; s_reclaimable := 0 |} with
  | inl e => inl e
  | inr acc =>
      inr {| evaluations := s_evaluations acc;
             meetingCount := s_count acc;
             totalMinutes := s_minutes acc;
             averageScore :=
               if (s_count acc =? 0)%nat then None
               else Some (s_scores acc / Qnat (s_count acc));
             lowValueMinutes := s_low acc;
             reclaimableMinutes := s_reclaimable acc |}
  end.

(** Modelled from the spec: the meeting of scenario A. *)
Definition scenario_A : Meeting :=
  {| title := "Scenario A";
     duration := 90;
     participantCount := 10;
     expectedSpeakerCount := 4;
     hasAgenda := true;
     decisionMade := Some true;
     followUpSent := Some false;
     couldBeAsync := false |}.

(** Modelled from the spec: the meeting of scenario B (scenario A, but
    it could be asynchronous and no decision was made). *)
Definition scenario_B : Meeting :=
  {| title := "Scenario B";
     duration := 90;
     participantCount := 10;
     expectedSpeakerCount := 4;
     hasAgenda := true;
     decisionMade := Some false;
     followUpSent := Some false;
     couldBeAsync := true |}.

End Scoring.

(** ** The other methods of the feedback collection and their callers *)

Module Lifecycle.

Import Feedback.

(** *** initialize *)

(** The instance with another [surveyTemplates]. *)
Definition set_templates (templates : gmap string Template)
    (this : FeedbackCollection) : FeedbackCollection :=
  {| feedbackDatabase := feedbackDatabase this;
     surveyTemplates := templates;
     notificationChannels := notificationChannels this |}.

(** The instance with another [notificationChannels]. *)
Definition set_channels (channels : gmap string bool)
    (this : FeedbackCollection) : FeedbackCollection :=
  {| feedbackDatabase := feedbackDatabase this;
     surveyTemplates := surveyTemplates this;
     notificationChannels := channels |}.

(** The [options] object of [initialize]: its [notificationChannels]
    property, [None] when absent. *)
Record Options := {
  opt_notificationChannels : option (gmap string bool)
}.

(** [initialize(options)]. The argument is [None] for [null] (whose
    property read throws) and [Some] of the object otherwise; a call
    without argument passes the empty object. The spread
    [{...this.notificationChannels, ...options.notificationChannels}]
    lets the keys of the options win. *)
Definition initialize (options : option Options) : M bool :=
  try_catch
    (match options with
     | None => throw "TypeError"
     | Some o =>
         match opt_notificationChannels o with
         | Some override =>
             fun this =>
               (Ok tt, set_channels (override ∪ notificationChannels this) this)
         | None => mret tt
         end;;
         createDefaultTemplates;;
         mret true
     end)
    (fun _ => mret false).

(** *** createCustomTemplate *)

(** [createCustomTemplate(name, questions)]. [questions] is [None] when
    the argument is missing or not an array. The test is [!name ||
    !questions || !Array.isArray(questions) || questions.length === 0]. *)
Definition createCustomTemplate (name : string) (questions : option (list Question))
    : M bool :=
  try_catch
    (if String.eqb name ""
        || match questions with
           | None => true
           | Some qs => (length qs =? 0)%nat
           end
     then throw "Invalid template parameters"
     else
       (fun this =>
          (Ok tt,
           set_templates
             (<[toLowerCase name :=
                  {| t_name := name; t_questions := default [] questions |}]>
                (surveyTemplates this)) this));;
       mret true)
    (fun _ => mret false).

(** *** getFeedbackSurvey *)

(** The object [getFeedbackSurvey] returns. *)
Record Survey := {
  survey_id : string;
  survey_meetingTitle : Js.value;
  survey_questions : list Question
}.

(** [getFeedbackSurvey(feedbackId)]: the first record with the id, then
    the template stored under the record's [template] text as it is. *)
Definition getFeedbackSurvey (feedbackId : string) : M (option Survey) :=
  try_catch
    (db ← gets feedbackDatabase;
     match List.find (fun fb => String.eqb (fb_id fb) feedbackId) db with
     | None => throw ("Feedback with ID " +:+ feedbackId +:+ " not found")
     | Some feedback =>
         templates ← gets surveyTemplates;
         match templates !! template feedback with
         | None => throw ("Template " +:+ template feedback +:+ " not found")
         | Some tpl =>
             mret (Some {| survey_id := fb_id feedback;
                           survey_meetingTitle := meetingTitle feedback;
                           survey_questions := t_questions tpl |})
         end
     end)
    (fun _ => mret None).

(** *** processPendingFeedback *)

(** A database entry with the two properties [processPendingFeedback]
    adds to it; an entry never processed has [processed = false] (the
    property is absent) and no [processedAt]. *)
Record Tracked := {
  entry : FeedbackRecord;
  processed : bool;
  processedAt : option Z
}.

(** The callback of both filters: [fb.status === 'completed' &&
    !fb.processed]. *)
Definition is_pending (fb : Tracked) : bool :=
  String.eqb (status (entry fb)) "completed" && negb (processed fb).

(** The two writes of the loop body. *)
Definition mark_processed (at_ : Z) (fb : Tracked) : Tracked :=
  {| entry := entry fb; processed := true; processedAt := Some at_ |}.

(** The object the method resolves with. *)
Record ProcessingReport := {
  r_processed : nat;
  r_failed : nat;
  r_remaining : nat
}.

(** The [for ... of pending] loop. [pending] holds the very objects of
    the database, so the writes show in the database: the entries that
    pass the filter are marked in database order, the [i]-th of them at
    time [clock i]. Returns the database and the counter [processed]. *)
Fixpoint process_loop (clock : nat -> Z) (processed0 : nat) (db : list Tracked)
    : list Tracked * nat :=
  match db with
  | [] => ([], processed0)
  | fb :: rest =>
      if is_pending fb then
        let (rest', n) := process_loop clock (S processed0) rest in
        (mark_processed (clock processed0) fb :: rest', n)
      else
        let (rest', n) := process_loop clock processed0 rest in
        (fb :: rest', n)
  end.

(** [processPendingFeedback()], on the database extended with the two
    properties; [clock i] is the reading of [new Date()] in the [i]-th
    iteration. The body of the inner [try] cannot throw, so [failed]
    stays 0. *)
Definition processPendingFeedback (clock : nat -> Z) (db : list Tracked)
    : ProcessingReport * list Tracked :=
  let (db', n) := process_loop clock 0 db in
  ({| r_processed := n;
      r_failed := 0;
      r_remaining := length (List.filter is_pending db') |}, db').

(** *** The feedback routes of the API *)

(** What a route sends: the status code, the [success] flag and the
    [message], when there is one. *)
Record Reply := {
  http_status : nat;
  success : bool;
  message : option string
}.

(** The body of [POST /api/feedback/submit]; a field is [None] when the
    request left it out. *)
Record SubmitBody := {
  b_feedbackId : option string;
  b_responses : option ResponseData
}.

(** [res.status(500).json({ success: false, message: error.message })]. *)
Definition server_error (msg : string) : Reply :=
  {| http_status := 500; success := false; message := Some msg |}.

(** [POST /api/feedback/submit]; [now] is the timestamp
    [submitFeedback] takes. *)
Definition submit_route (body : SubmitBody) (now : Z) : M Reply :=
  try_catch
    (match b_feedbackId body, b_responses body with
     | Some feedbackId, Some responses0 =>
         if String.eqb feedbackId "" then throw "Invalid feedback data"
         else
           ok ← submitFeedback feedbackId responses0 now;
           if ok : bool then
             mret {| http_status := 200; success := true;
                     message := Some "Feedback submitted successfully" |}
           else throw "Failed to submit feedback"
     | _, _ => throw "Invalid feedback data"
     end)
    (fun msg => mret (server_error msg)).

(** [GET /api/feedback/survey/:id]: the reply and the survey sent with
    it. *)
Definition survey_route (id : string) : M (Reply * option Survey) :=
  try_catch
    (survey ← getFeedbackSurvey id;
     match survey with
     | Some sv =>
         mret ({| http_status := 200; success := true; message := None |}, Some sv)
     | None =>
         mret ({| http_status := 404; success := false;
                  message := Some "Survey not found" |}, None)
     end)
    (fun msg => mret (server_error msg, None)).

(** *** Vocabulary *)

(** Text of ASCII characters only, on which [String.prototype.toLowerCase]
    lowers the letters A to Z and nothing else. *)
Fixpoint is_ascii (s : string) : bool :=
  match s with
  | EmptyString => true
  | String c rest => (nat_of_ascii c <? 128)%nat && is_ascii rest
  end.

(** The property names every object inherits from [Object.prototype]. A
    read of [surveyTemplates] under one of them finds the inherited value
    where the object has no template of its own, and a write under
    [__proto__] replaces the prototype; the map of templates does not
    show either. *)
Definition object_prototype_keys : list string :=
  ["constructor"; "__proto__"; "hasOwnProperty"; "isPrototypeOf";
   "propertyIsEnumerable"; "toLocaleString"; "toString"; "valueOf";
   "__defineGetter__"; "__defineSetter__"; "__lookupGetter__";
   "__lookupSetter__"].

Definition inherited_key (k : string) : bool :=
  existsb (String.eqb k) object_prototype_keys.

(** The prototype of [surveyTemplates] is the one it was created with:
    nothing was stored under [__proto__]. *)
Definition plain_templates (this : FeedbackCollection) : Prop :=
  surveyTemplates this !! "__proto__" = None.

(** [undefined] or [null]. *)
Definition nullish (v : Js.value) : Prop :=
  match v with
  | Undefined | Null => True
  | _ => False
  end.

#[global] Instance nullish_decision v : Decision (nullish v).
Proof. destruct v; simpl; apply _. Defined.

(** A record is scheduled without responses, or completed with some. *)
Definition record_ok (fb : FeedbackRecord) : Prop :=
  (status fb = "scheduled" /\ responses fb = [])
  \/ (status fb = "completed" /\ responses fb <> []).

(** Every record of the database is in one of the two states. *)
Definition database_ok (this : FeedbackCollection) : Prop :=
  Forall record_ok (feedbackDatabase this).

(** Every template is stored under a lower-case key. *)
Definition keys_lowercase (this : FeedbackCollection) : Prop :=
  forall k, is_Some (surveyTemplates this !! k) -> toLowerCase k = k.

(** No record of the database has the id. *)
Definition fresh_id (id : string) (this : FeedbackCollection) : Prop :=
  forall fb, fb ∈ feedbackDatabase this -> fb_id fb <> id.

(** [totalResponses] of a result of [getAggregatedFeedback], 0 for
    [null]. *)
Definition total_of (r : Js.result (option AggregatedFeedback)) : nat :=
  match r with
  | Ok (Some a) => totalResponses a
  | _ => 0%nat
  end.

(** The suggestions of an area. *)
Definition in_area (x : string) (l : list Suggestion) : list Suggestion :=
  filter (fun s => area s = x) l.

(** There is a suggestion for the area. *)
Definition has_suggestion (x : string) (l : list Suggestion) : Prop :=
  exists s, s ∈ l /\ area s = x.

(** There is a suggestion of priority high for the area. *)
Definition has_high (x : string) (l : list Suggestion) : Prop :=
  exists s, s ∈ l /\ area s = x /\ priority s = "high".

(** The areas in the order the suggestions are made. *)
Definition all_areas : list string :=
  ["Decision Making"; "Action Items"; "Participation"; "Meeting Format";
   "Meeting Length"].

(** One entry before and after [processPendingFeedback]: the record is
    kept; an entry that was not pending is unchanged; a pending one is
    marked. *)
Definition processed_from (fb fb' : Tracked) : Prop :=
  entry fb' = entry fb
  /\ (is_pending fb = false -> fb' = fb)
  /\ (is_pending fb = true -> processed fb' = true /\ is_Some (processedAt fb')).

(** [v.k], with [undefined] where the read would throw. *)
Definition read (v : Js.value) (k : string) : Js.value :=
  match Js.get v k with
  | Ok x => x
  | Throw _ => Undefined
  end.

(** The record [scheduleFeedback] makes for an existing template and a
    meeting that is not [null] or [undefined]. *)
Definition scheduled_record (meeting : Js.value) (templateName rnd : string)
    (now : Z) : FeedbackRecord :=
  {| fb_id := "fb-" +:+ rnd;
     meetingId := Js.or (read meeting "id") Null;
     meetingTitle := read meeting "title";
     scheduledTime := Js.or (read meeting "endTime") (Num (inject_Z (now + 3600000)));
     template := templateName;
     status := "scheduled";
     responses := [] |}.

(** The record [submitFeedback] and [getFeedbackSurvey] pick for an id:
    the first one that carries it. *)
Definition record_with_id (id : string) (this : FeedbackCollection)
    : option FeedbackRecord :=
  List.find (fun fb => String.eqb (fb_id fb) id) (feedbackDatabase this).

(** *** Sample data *)

(** Answers to the brief template: none of its questions is among those
    the aggregator counts, but [could_be_async]. *)
Definition brief_answers (could_be_async0 : bool) : ResponseData :=
  {| decision_made := None; action_items := None; participation := None;
     could_be_async := Some could_be_async0; meeting_length := None |}.


(** A completed record of the series rec-123 whose meeting had another
    title. *)
Definition record_4 : FeedbackRecord :=
  {| fb_id := "fb-4";
     meetingId := Obj [("recurringMeetingId", Str "rec-123")];
     meetingTitle := Str "Team Sync (renamed)";
     scheduledTime := Num 0;
     template := "standard";
     status := "completed";
     responses := [{| timestamp := 8; data := answers_2 |}] |}.

(** One question, for a custom template. *)
Definition q_blockers : Question :=
  boolean_question "blockers" "Were blockers raised?".

(** [collection_1] with its first record unprocessed, its second not
    completed, and its third processed at time 7. *)
Definition tracked_1 : list Tracked :=
  [{| entry := record_1; processed := false; processedAt := None |};
   {| entry := record_2; processed := false; processedAt := None |};
   {| entry := record_3; processed := true; processedAt := Some 7%Z |}].

End Lifecycle.

(** ** The participation average in binary64 *)

Module Doubles.

Import Feedback.

(** An integer as a double (exact below 2^53). *)
Definition double_of_Z (z : Z) : PrimFloat.float :=
  match z with
  | Z0 => PrimFloat.zero
  | Zpos _ => PrimFloat.of_uint63 (Uint63.of_Z z)
  | Zneg n => PrimFloat.opp (PrimFloat.of_uint63 (Uint63.of_Z (Zpos n)))
  end.

(** The double a number answer arrives as: the one nearest to the
    decimal text, which the correctly rounded quotient of numerator and
    denominator is (both below 2^53). *)
Definition to_double (q : Q) : PrimFloat.float :=
  PrimFloat.div (double_of_Z (Qnum q)) (double_of_Z (Zpos (Qden q))).

(** [if (response.data.participation) participationSum +=
    response.data.participation], on doubles. *)
Definition add_participation (participationSum : PrimFloat.float)
    (response : Response) : PrimFloat.float :=
  if truthy_num (participation (data response))
  then PrimFloat.add participationSum
         (to_double (default 0 (participation (data response))))
  else participationSum.

(** [participationSum] after the two nested [forEach] loops. *)
Definition participationSum64 (feedbackItems : list FeedbackRecord) : PrimFloat.float :=
  fold_left
    (fun sum feedback => fold_left add_participation (responses feedback) sum)
    feedbackItems PrimFloat.zero.

(** [averageParticipation] of the object [getAggregatedFeedback]
    returns, as the double the code computes: [participationSum /
    aggregated.totalResponses] when [totalResponses > 0], the initial 0
    otherwise; [None] when the method returns [null]. *)
Definition averageParticipation64 (db : list FeedbackRecord) (rid : string)
    : option PrimFloat.float :=
  match filterR (matches rid) db with
  | Ok (first :: rest) =>
      let feedbackItems := first :: rest in
      let total := l_totalResponses (fold_left process_feedback feedbackItems initial_loop) in
      Some (if (0 <? total)%nat
            then PrimFloat.div (participationSum64 feedbackItems)
                   (double_of_Z (Z.of_nat total))
            else PrimFloat.zero)
  | _ => None
  end.



(** Three submissions that report 89.8, 0.1 and 0.1 percent. *)
Definition participation_answers (p : Q) : ResponseData :=
  {| decision_made := Some true; action_items := Some true;
     participation := Some p; could_be_async := Some false;
     meeting_length := Some "Just right" |}.

Definition record_5 : FeedbackRecord :=
  {| fb_id := "fb-5";
     meetingId := Obj [("recurringMeetingId", Str "rec-123")];
     meetingTitle := Str "Weekly Team Sync";
     scheduledTime := Num 0;
     template := "standard";
     status := "completed";
     responses := [{| timestamp := 1; data := participation_answers 89.8 |};
                   {| timestamp := 2; data := participation_answers 0.1 |};
                   {| timestamp := 3; data := participation_answers 0.1 |}] |}.

(** The same record with the submissions in the opposite order. *)
Definition record_5_reversed : FeedbackRecord :=
  {| fb_id := "fb-5";
     meetingId := Obj [("recurringMeetingId", Str "rec-123")];
     meetingTitle := Str "Weekly Team Sync";
     scheduledTime := Num 0;
     template := "standard";
     status := "completed";
     responses := [{| timestamp := 3; data := participation_answers 0.1 |};
                   {| timestamp := 2; data := participation_answers 0.1 |};
                   {| timestamp := 1; data := participation_answers 89.8 |}] |}.

End Doubles.

(** * Properties *)

Import Feedback.

(** ** Numbers *)

Lemma Qltb_lt x y : Qltb x y = true <-> x < y.
Proof. unfold Qltb, Qlt. apply Z.ltb_lt. Qed.

Lemma Qltb_nlt x y : Qltb x y = false <-> ~ x < y.
Proof.
  rewrite <- Qltb_lt. destruct (Qltb x y); split; intros; congruence.
Qed.

Lemma Qnat_S n : Qnat (S n) == Qnat n + 1.
Proof.
  unfold Qnat. rewrite Nat2Z.inj_succ, <- Z.add_1_r, inject_Z_plus. reflexivity.
Qed.


Lemma Qnat_pos n : (0 < n)%nat -> 0 < Qnat n.
Proof.
  intros H. unfold Qnat. change 0 with (inject_Z 0). rewrite <- Zlt_Qlt. lia.
Qed.

(** ** The suggestion engine *)

Section Suggestions.

Lemma rating_gtb_gt r y : rating_gtb r y = true <-> rating_gt r y.
Proof.
  destruct r as [[n|]|]; simpl; [apply Qltb_lt | |]; split; done.
Qed.

(** One [if (test) suggestions.push(s)] statement appends one row. *)
Lemma push_rule (P : Prop) `{!Decision P} (test : bool) (l : list Suggestion) s :
  (test = true <-> P) ->
  (if test then push l s else l) = l ++ rule P s.
Proof.
  intros H. unfold rule, push. destruct test, (decide P) as [p|np]; try done.
  - destruct np. by apply H.
  - apply H in p. discriminate.
  - by rewrite app_nil_r.
Qed.

Lemma level_test (P : Prop) `{!Decision P} (test : bool) :
  (test = true <-> P) ->
  (if test then "high" else "medium") = level P.
Proof.
  intros H. unfold level. destruct test, (decide P) as [p|np]; try done.
  - destruct np. by apply H.
  - apply H in p. discriminate.
Qed.

(** The [if ... else if ...] on the meeting length appends R5a or R5b. *)
Lemma push_length (a : AggregatedFeedback) (l : list Suggestion) s1 s2 :
  (if rating_gtb (lengthRatings a !! "Too long") (Qnat (totalResponses a) * 0.5)
   then push l s1
   else if rating_gtb (lengthRatings a !! "Too short") (Qnat (totalResponses a) * 0.5)
        then push l s2 else l)
  = l ++ rule (too_long a) s1 ++ rule (~ too_long a /\ too_short a) s2.
Proof.
  unfold rule, push, too_long, too_short.
  destruct (rating_gtb (lengthRatings a !! "Too long") _) eqn:E1.
  - apply rating_gtb_gt in E1.
    destruct (decide _) as [|n]; [|done].
    destruct (decide (_ /\ _)) as [[n _]|]; [done|]. reflexivity.
  - assert (~ rating_gt (lengthRatings a !! "Too long") (Qnat (totalResponses a) * 0.5)) as N1.
    { rewrite <- rating_gtb_gt. congruence. }
    destruct (decide (rating_gt (lengthRatings a !! "Too long") _)) as [|_]; [done|].
    destruct (rating_gtb (lengthRatings a !! "Too short") _) eqn:E2.
    + apply rating_gtb_gt in E2.
      destruct (decide (_ /\ _)) as [|n]; [done|]. destruct n. done.
    + destruct (decide (_ /\ _)) as [[_ H]|]; [|by rewrite app_nil_r].
      apply rating_gtb_gt in H. congruence.
Qed.

(** C1. For an aggregate with [totalResponses > 0],
    [generateImprovementSuggestions] returns exactly the suggestions of
    the rules that fire, in the order R1, R2, R3, R4, then R5a or R5b:
    Decision Making iff decisionsRate < 0.5 (high iff < 0.2), Action Items
    iff actionItemsRate < 0.6 (high iff < 0.3), Participation iff
    averageParticipation < 50 (high iff < 30), Meeting Format iff
    couldBeAsyncRate > 0.6 (high iff > 0.8), and at most one Meeting
    Length suggestion: high iff Too long > totalResponses * 0.5, otherwise
    medium iff Too short > totalResponses * 0.5. *)
Theorem generate_rule_table (a : AggregatedFeedback) :
  (0 < totalResponses a)%nat ->
  generateImprovementSuggestions (Some a)
    = R1 a ++ R2 a ++ R3 a ++ R4 a ++ R5a a ++ R5b a
  /\ (length (R5a a ++ R5b a) <= 1)%nat.
Proof.
  intros Hpos. split.
  - unfold generateImprovementSuggestions.
    destruct (Nat.eqb_spec (totalResponses a) 0) as [E|_]; [lia|].
    cbv zeta.
    rewrite (level_test _ (Qltb (decisionsRate a) 0.2) (Qltb_lt _ _)).
    rewrite (level_test _ (Qltb (actionItemsRate a) 0.3) (Qltb_lt _ _)).
    rewrite (level_test _ (Qltb (averageParticipation a) 30) (Qltb_lt _ _)).
    rewrite (level_test _ (Qltb 0.8 (couldBeAsyncRate a)) (Qltb_lt _ _)).
    rewrite (push_rule _ (Qltb (decisionsRate a) 0.5) _ _ (Qltb_lt _ _)).
    rewrite (push_rule _ (Qltb (actionItemsRate a) 0.6) _ _ (Qltb_lt _ _)).
    rewrite (push_rule _ (Qltb (averageParticipation a) 50) _ _ (Qltb_lt _ _)).
    rewrite (push_rule _ (Qltb 0.6 (couldBeAsyncRate a)) _ _ (Qltb_lt _ _)).
    rewrite push_length.
    unfold R1, R2, R3, R4, R5a, R5b. simpl. by rewrite <- !app_assoc.
  - unfold R5a, R5b, rule.
    destruct (decide (too_long a)), (decide (_ /\ _)) as [[]|]; simpl; try lia.
    done.
Qed.

(** Scenario C: R1, R3, R4 and R5a fire, all with priority high; R2 does
    not. *)
Example scenario_C_suggestions :
  map (fun s => (area s, priority s)) (generateImprovementSuggestions (Some scenario_C))
  = [("Decision Making", "high"); ("Participation", "high");
     ("Meeting Format", "high"); ("Meeting Length", "high")].
Proof. vm_compute. reflexivity. Qed.

Lemma generate_rule_table_witness :
  generateImprovementSuggestions (Some scenario_C)
    = R1 scenario_C ++ R2 scenario_C ++ R3 scenario_C ++ R4 scenario_C
      ++ R5a scenario_C ++ R5b scenario_C
  /\ (length (R5a scenario_C ++ R5b scenario_C) <= 1)%nat.
Proof. apply (generate_rule_table scenario_C). simpl. lia. Defined.

End Suggestions.

(** ** The aggregator *)

Section Aggregation.

(** The model at work: an option outside the fixed ones gets a [NaN]
    bucket and leaves the three counters alone; an unknown template, a
    [null] meeting and an unknown feedback id are caught and change
    nothing; template names are matched in lower case. *)
Example unknown_option_bucket :
  incr "Way too long" initial_ratings !! "Way too long" = Some NaN
  /\ incr "Way too long" initial_ratings !! "Too long" = Some (Count 0).
Proof. vm_compute. done. Qed.

Example schedule_unknown_template :
  scheduleFeedback meeting_1 "weekly" "k3j9x2m1q" 1 collection_0
  = (Ok None, collection_0).
Proof. vm_compute. reflexivity. Qed.

Example schedule_null_meeting :
  scheduleFeedback Null "standard" "k3j9x2m1q" 1 collection_0
  = (Ok None, collection_0).
Proof. vm_compute. reflexivity. Qed.

Example schedule_template_case :
  feedbackDatabase (scheduleFeedback meeting_1 "Standard" "k3j9x2m1q" 1 collection_0).2
  = [{| fb_id := "fb-k3j9x2m1q";
        meetingId := Str "meeting-1";
        meetingTitle := Str "Weekly Team Sync";
        scheduledTime := Num (inject_Z 3600001);
        template := "Standard";
        status := "scheduled";
        responses := [] |}].
Proof. vm_compute. reflexivity. Qed.

Example submit_unknown_id :
  submitFeedback "fb-0" answers_1 4 collection_1 = (Ok false, collection_1).
Proof. vm_compute. reflexivity. Qed.

Example submit_second_record :
  feedbackDatabase (submitFeedback "fb-2" answers_2 4 collection_1).2
  = [record_1; add_response answers_2 4 record_2; record_3].
Proof. vm_compute. reflexivity. Qed.

Lemma bool_decide_test (b : bool) (P : Prop) `{!Decision P} :
  (b = true <-> P) -> b = bool_decide P.
Proof.
  intros H. destruct b; symmetry.
  - apply bool_decide_eq_true, H. reflexivity.
  - apply bool_decide_eq_false. intros p. apply H in p. discriminate.
Qed.

Lemma responses_nonempty (fb : FeedbackRecord) :
  (0 <? length (responses fb))%nat = true <-> responses fb <> [].
Proof.
  rewrite Nat.ltb_lt. destruct (responses fb); simpl; split; intros; try done; lia.
Qed.

(** The filter callback never throws and decides [considered]. *)
Lemma matches_spec rid fb :
  exists b, matches rid fb = Ok b /\ (b = true <-> considered rid fb).
Proof.
  unfold matches, considered, series_of.
  destruct (meetingId fb) as [| |b|q|s|props]; simpl.
  - exists false. split; [done | split; [done | intros [[=] _]]].
  - exists false. split; [done | split; [done | intros [[=] _]]].
  - exists false. split; [by destruct b | split; [done | intros [[=] _]]].
  - exists false. split; [by destruct (negb _) | split; [done | intros [[=] _]]].
  - exists false. split; [by destruct (negb _) | split; [done | intros [[=] _]]].
  - eexists. split; [reflexivity|].
    rewrite !andb_true_iff, String.eqb_eq, responses_nonempty.
    destruct (lookup_prop _ props) as [[| |b|q|s|ps]|];
      try solve [split; [intros [[H _] _] | intros [H _]]; discriminate H].
    change (strict_eq_str _ rid) with (String.eqb s rid).
    rewrite String.eqb_eq. split.
    + intros [[-> ?] ?]. done.
    + intros ([= ->] & ? & ?). done.
Qed.

Lemma matches_considered rid fb :
  matches rid fb = Ok (bool_decide (considered rid fb)).
Proof.
  destruct (matches_spec rid fb) as (b & -> & H).
  f_equal. by apply bool_decide_test.
Qed.

Lemma filterR_matches rid db :
  filterR (matches rid) db = Ok (filter (considered rid) db).
Proof.
  induction db as [|fb db IH]; [reflexivity|].
  simpl. rewrite matches_considered. simpl. rewrite IH. simpl.
  rewrite filter_cons. unfold mret, result_ret.
  destruct (decide (considered rid fb)) as [c|n].
  - by rewrite bool_decide_eq_true_2.
  - by rewrite bool_decide_eq_false_2.
Qed.

(** The [try] block never reaches its [catch]. *)
Lemma aggregate_ok db rid :
  aggregate db rid = Ok (aggregate_items rid (filter (considered rid) db)).
Proof. unfold aggregate. rewrite filterR_matches. reflexivity. Qed.

Lemma getAggregatedFeedback_run rid this :
  getAggregatedFeedback rid this
  = (Ok (aggregate_items rid (filter (considered rid) (feedbackDatabase this))), this).
Proof.
  unfold getAggregatedFeedback, try_catch, mbind, M_bind, gets, lift.
  rewrite aggregate_ok. reflexivity.
Qed.

(** The nested loops visit every response of every item, in order. *)
Lemma process_feedback_flat items st :
  fold_left process_feedback items st
  = fold_left process_response (all_responses items) st.
Proof.
  revert st. induction items as [|fb items IH]; intros st; [reflexivity|].
  unfold all_responses. simpl. rewrite fold_left_app. apply IH.
Qed.

Lemma loop_total rs st :
  l_totalResponses (fold_left process_response rs st)
  = (l_totalResponses st + length rs)%nat.
Proof.
  revert st. induction rs as [|r rs IH]; intros st; simpl; [lia|].
  rewrite IH. simpl. lia.
Qed.

Lemma count_truthy_cons f r rs :
  count_truthy f (r :: rs)
  = ((if truthy_bool (f (data r)) then 1 else 0) + count_truthy f rs)%nat.
Proof.
  unfold count_truthy. rewrite filter_cons.
  destruct (truthy_bool (f (data r))); by case_decide.
Qed.

Lemma loop_decisions rs st :
  decisionCount (fold_left process_response rs st)
  = (decisionCount st + count_truthy decision_made rs)%nat.
Proof.
  revert st. induction rs as [|r rs IH]; intros st; simpl.
  - unfold count_truthy. simpl. lia.
  - rewrite IH, count_truthy_cons. simpl.
    destruct (truthy_bool (decision_made (data r))); lia.
Qed.

Lemma loop_actions rs st :
  actionItemsCount (fold_left process_response rs st)
  = (actionItemsCount st + count_truthy action_items rs)%nat.
Proof.
  revert st. induction rs as [|r rs IH]; intros st; simpl.
  - unfold count_truthy. simpl. lia.
  - rewrite IH, count_truthy_cons. simpl.
    destruct (truthy_bool (action_items (data r))); lia.
Qed.

Lemma loop_async rs st :
  asyncCount (fold_left process_response rs st)
  = (asyncCount st + count_truthy could_be_async rs)%nat.
Proof.
  revert st. induction rs as [|r rs IH]; intros st; simpl.
  - unfold count_truthy. simpl. lia.
  - rewrite IH, count_truthy_cons. simpl.
    destruct (truthy_bool (could_be_async (data r))); lia.
Qed.


(** Skipping a zero answer does not change the sum. *)
Lemma loop_participation rs st :
  participationSum (fold_left process_response rs st)
  == participationSum st + Qsum (supplied_participation rs).
Proof.
  revert st. induction rs as [|r rs IH]; intros st; simpl.
  - unfold Qsum. simpl. ring.
  - rewrite IH. simpl. unfold supplied_participation. simpl.
    destruct (participation (data r)) as [q|]; simpl.
    + fold (supplied_participation rs).
      destruct (Z.eqb_spec (Qnum q) 0) as [E|N]; simpl.
      * assert (q == 0) as -> by (unfold Qeq; simpl; lia). ring.
      * ring.
    + fold (supplied_participation rs). ring.
Qed.

Lemma count_option_cons k r rs :
  count_option k (r :: rs)
  = ((if decide (meeting_length (data r) = Some k) then 1 else 0)
     + count_option k rs)%nat.
Proof. unfold count_option. rewrite filter_cons. by case_decide. Qed.

(** A bucket that holds a counter ends with the number of responses that
    chose its option added. *)
Lemma loop_bucket k rs st c :
  k <> "" ->
  l_lengthRatings st !! k = Some (Count c) ->
  l_lengthRatings (fold_left process_response rs st) !! k
  = Some (Count (c + count_option k rs)).
Proof.
  intros Hk. revert st c. induction rs as [|r rs IH]; intros st c Hc; simpl.
  - unfold count_option. simpl. by rewrite Nat.add_0_r.
  - rewrite count_option_cons.
    destruct (meeting_length (data r)) as [s|] eqn:E.
    + destruct (decide (Some s = Some k)) as [[= ->]|N].
      * rewrite (IH _ (S c)); [f_equal; f_equal; lia|].
        simpl. rewrite E. simpl.
        destruct (String.eqb_spec k "") as [|_]; [done|]. simpl.
        unfold incr. rewrite lookup_insert_eq, Hc. done.
      * rewrite (IH _ c); [f_equal; f_equal; lia|].
        simpl. rewrite E. simpl.
        destruct (negb _); [|done]. unfold incr.
        rewrite lookup_insert_ne; [done | congruence].
    + destruct (decide (None = Some k)) as [[=]|_].
      rewrite (IH _ c); [f_equal; f_equal; lia|].
      simpl. by rewrite E.
Qed.



(** Considered records have responses, so the total is positive. *)
Lemma considered_total_pos rid db first rest :
  filter (considered rid) db = first :: rest ->
  (0 < length (all_responses (first :: rest)))%nat.
Proof.
  intros E.
  assert (first ∈ filter (considered rid) db) as Hin by (rewrite E; left).
  apply list_elem_of_filter in Hin as [(_ & _ & Hne) _].
  unfold all_responses. simpl. rewrite length_app.
  destruct (responses first); [done | simpl; lia].
Qed.

Lemma aggregate_items_cons rid first rest :
  let st := fold_left process_response (all_responses (first :: rest)) initial_loop in
  (0 < l_totalResponses st)%nat ->
  aggregate_items rid (first :: rest)
  = Some {| recurringMeetingId := rid;
            aggTitle := meetingTitle first;
            totalResponses := l_totalResponses st;
            decisionsRate := Qnat (decisionCount st) / Qnat (l_totalResponses st);
            actionItemsRate := Qnat (actionItemsCount st) / Qnat (l_totalResponses st);
            averageParticipation := participationSum st / Qnat (l_totalResponses st);
            couldBeAsyncRate := Qnat (asyncCount st) / Qnat (l_totalResponses st);
            lengthRatings := l_lengthRatings st |}.
Proof.
  intros st Hpos. unfold aggregate_items.
  rewrite process_feedback_flat. fold st.
  apply Nat.ltb_lt in Hpos. by rewrite Hpos.
Qed.


(** The first sample collection: two submissions are aggregated for
    rec-123, the scheduled record and the record with a string id are
    left out. *)
Example collection_1_aggregate :
  match (getAggregatedFeedback "rec-123" collection_1).1 with
  | Ok (Some a) =>
      totalResponses a = 2%nat
      /\ Qred (decisionsRate a) = 1 # 2
      /\ Qred (actionItemsRate a) = 1 # 2
      /\ Qred (couldBeAsyncRate a) = 1 # 2
      /\ Qred (averageParticipation a) = 20
      /\ lengthRatings a !! "Too long" = Some (Count 1)
      /\ lengthRatings a !! "Just right" = Some (Count 1)
      /\ lengthRatings a !! "Too short" = Some (Count 0)
  | _ => False
  end.
Proof. vm_compute. repeat split. Qed.


(** C3. The aggregate is computed from exactly the records that are
    considered for the queried id: those whose recurring-meeting id
    matches and whose status is completed with at least one response. Two
    collections with the same considered records give the same result; in
    particular every other record can be dropped; and the result is absent
    precisely when no record is considered. *)
Theorem aggregate_considers_exactly (this this' : FeedbackCollection) (rid : string) :
  filter (considered rid) (feedbackDatabase this')
    = filter (considered rid) (feedbackDatabase this) ->
  (getAggregatedFeedback rid this').1 = (getAggregatedFeedback rid this).1
  /\ (getAggregatedFeedback rid this).1
     = (getAggregatedFeedback rid
          (set_database (filter (considered rid) (feedbackDatabase this)) this)).1
  /\ ((getAggregatedFeedback rid this).1 = Ok None
      <-> forall fb, fb ∈ feedbackDatabase this -> ~ considered rid fb)
  /\ (forall a, (getAggregatedFeedback rid this).1 = Ok (Some a) ->
        totalResponses a
        = length (all_responses (filter (considered rid) (feedbackDatabase this)))).
Proof.
  intros Hsame. rewrite !getAggregatedFeedback_run. simpl.
  split; [by rewrite Hsame|]. split; [|split].
  - f_equal. f_equal. symmetry. apply list_filter_filter_l. done.
  - split.
    + intros [= H] fb Hin Hc.
      destruct (filter (considered rid) (feedbackDatabase this)) as [|x l] eqn:E.
      * exact (filter_nil_not_elem_of _ _ _ E Hc Hin).
      * discriminate H.
    + intros H.
      destruct (filter (considered rid) (feedbackDatabase this)) as [|x l] eqn:E;
        [done|].
      assert (x ∈ filter (considered rid) (feedbackDatabase this)) as Hin
        by (rewrite E; left).
      apply list_elem_of_filter in Hin as [Hc Hin]. by destruct (H x).
  - intros a [= H].
    destruct (filter (considered rid) (feedbackDatabase this)) as [|x l] eqn:E;
      [discriminate H|].
    pose proof (considered_total_pos _ _ _ _ E) as Hpos.
    rewrite aggregate_items_cons in H
      by (rewrite loop_total; exact Hpos).
    injection H as <-. simpl. by rewrite loop_total.
Qed.

Lemma aggregate_considers_exactly_witness :
  (getAggregatedFeedback "rec-123" collection_2).1
  = (getAggregatedFeedback "rec-123" collection_1).1.
Proof.
  apply (aggregate_considers_exactly collection_1 collection_2 "rec-123").
  vm_compute. reflexivity.
Defined.

(** C4. Neither method raises. The [try] block of
    [getAggregatedFeedback] ends normally on every database, with an
    aggregate whose [totalResponses] is positive (no rate is a division by
    zero) or with [null]; when no record is considered the method returns
    [null]; and [generateImprovementSuggestions] returns the empty
    sequence for [null] and for an aggregate with [totalResponses = 0]. *)
Theorem aggregate_absent_never_raises (this : FeedbackCollection) (rid : string) :
  (forall fb, fb ∈ feedbackDatabase this -> ~ considered rid fb) ->
  getAggregatedFeedback rid this = (Ok None, this)
  /\ aggregate (feedbackDatabase this) rid = Ok None
  /\ (forall db rid', exists r,
        aggregate db rid' = Ok r
        /\ forall a, r = Some a -> (0 < totalResponses a)%nat)
  /\ generateImprovementSuggestions None = []
  /\ (forall a, totalResponses a = 0%nat ->
        generateImprovementSuggestions (Some a) = []).
Proof.
  intros Hnone.
  assert (filter (considered rid) (feedbackDatabase this) = []) as E.
  { destruct (filter _ _) as [|x l] eqn:E; [done|].
    assert (x ∈ filter (considered rid) (feedbackDatabase this)) as Hin
      by (rewrite E; left).
    apply list_elem_of_filter in Hin as [Hc Hin]. by destruct (Hnone x). }
  rewrite getAggregatedFeedback_run, aggregate_ok, E. simpl.
  repeat split; try done.
  - intros db rid'. rewrite aggregate_ok. eexists. split; [reflexivity|].
    intros a Ha.
    destruct (filter (considered rid') db) as [|x l] eqn:E'; [discriminate Ha|].
    pose proof (considered_total_pos _ _ _ _ E') as Hpos.
    rewrite aggregate_items_cons in Ha by (rewrite loop_total; exact Hpos).
    injection Ha as <-. simpl. by rewrite loop_total.
  - intros a Ha. simpl. by rewrite Ha.
Qed.

Lemma aggregate_absent_never_raises_witness :
  getAggregatedFeedback "rec-456" collection_1 = (Ok None, collection_1).
Proof.
  apply (aggregate_absent_never_raises collection_1 "rec-456").
  intros fb Hin (Hs & _). revert Hs.
  unfold collection_1 in Hin. simpl in Hin.
  rewrite !elem_of_cons in Hin.
  destruct Hin as [->|[->|[->|Hin]]]; [| | | by apply elem_of_nil in Hin];
    vm_compute; discriminate.
Defined.

(** C6. Both methods leave the instance as it was: the database, every
    record in it, its status and its responses. *)
Theorem aggregation_and_suggestions_read_only
    (this : FeedbackCollection) (rid : string) (agg : option AggregatedFeedback) :
  (getAggregatedFeedback rid this).2 = this
  /\ feedbackDatabase (getAggregatedFeedback rid this).2 = feedbackDatabase this
  /\ (generateImprovementSuggestions_method agg this).2 = this
  /\ (match (getAggregatedFeedback rid this).1 with
      | Ok r => (generateImprovementSuggestions_method r this).2 = this
      | Throw _ => False
      end).
Proof.
  rewrite getAggregatedFeedback_run. simpl. done.
Qed.

End Aggregation.

(** ** Order insensitivity *)

Section Order.










End Order.

(** ** Order and rounding *)

Section Order_doubles.

Import Doubles.





(** The binary64 average is there exactly when the method returns an
    aggregate. *)
Lemma averageParticipation64_none this rid :
  averageParticipation64 (feedbackDatabase this) rid = None
  <-> (getAggregatedFeedback rid this).1 = Ok None.
Proof.
  unfold averageParticipation64. rewrite filterR_matches, getAggregatedFeedback_run.
  simpl. destruct (filter (considered rid) (feedbackDatabase this)) as [|x l]; [done|].
  simpl. split; discriminate.
Qed.

(** The two orders of the three submissions, in binary64: the sums are
    89.99999999999999 and 90, the averages 29.999999999999996 and 30, on
    either side of the threshold of the Participation rule. *)
Example average_participation_two_orders :
  match averageParticipation64 [record_5] "rec-123",
        averageParticipation64 [record_5_reversed] "rec-123" with
  | Some a, Some a' =>
      PrimFloat.ltb a a' = true
      /\ PrimFloat.ltb a (double_of_Z 30) = true
      /\ PrimFloat.eqb a' (double_of_Z 30) = true
  | _, _ => False
  end.
Proof. vm_compute. repeat split. Qed.


End Order_doubles.


(** ** Records made by scheduleFeedback *)

Section Scheduling.

(** What a successful [scheduleFeedback] did. *)
Lemma scheduleFeedback_some meeting templateName rnd now this fb this1 :
  scheduleFeedback meeting templateName rnd now this = (Ok (Some fb), this1) ->
  meetingId fb = Js.or (meeting_id meeting) Null
  /\ status fb = "scheduled"
  /\ responses fb = []
  /\ this1 = set_database (feedbackDatabase this ++ [fb]) this.
Proof.
  unfold scheduleFeedback, try_catch, mbind, M_bind, gets, throw, lift, meeting_id.
  destruct (surveyTemplates this !! toLowerCase templateName) as [t|];
    [|intros [=]].
  destruct meeting as [| |b|q|s0|props]; simpl; intros H;
    try discriminate H; injection H as <- <-; done.
Qed.

Lemma findIndex_app_fresh {A} (p : A -> bool) (l : list A) (x : A) :
  (forall y, y ∈ l -> p y = false) -> p x = true ->
  findIndex p (l ++ [x]) = Some (length l).
Proof.
  intros Hl Hx. induction l as [|y l IH]; simpl.
  - by rewrite Hx.
  - rewrite (Hl y) by left. rewrite IH; [done|].
    intros z Hz. apply Hl. by right.
Qed.

Lemma alter_last {A} (f : A -> A) (l : list A) (x : A) :
  alter f (length l) (l ++ [x]) = l ++ [f x].
Proof.
  induction l as [|y l IH]; [done|].
  change (y :: alter f (length l) (l ++ [x]) = y :: l ++ [f x]).
  by rewrite IH.
Qed.

(** A stored id without the property is never the id of a series. *)
Lemma no_series_not_considered rid v fb :
  no_series v -> meetingId fb = Js.or v Null -> ~ considered rid fb.
Proof.
  intros Hv Hm (Hs & _). revert Hs. unfold series_of. rewrite Hm.
  unfold Js.or. destruct v as [| |b|q|s0|props]; simpl in *; try done.
  - by destruct b.
  - by destruct (negb _).
  - by destruct (negb _).
  - by rewrite Hv.
Qed.

(** C10. The aggregator matches a record only when its stored
    [meetingId] is an object whose [recurringMeetingId] property is the
    queried id. [scheduleFeedback] stores [meeting.id || null] there, so a
    record it makes from a meeting whose id has no such property (a
    string, a missing id) is rejected by the filter for every queried id,
    whatever its status and responses; once [submitFeedback] has marked
    it completed with a response (ids being unique), every aggregation
    result is what it was before the record existed. *)
Theorem scheduled_records_without_series_excluded
    (this this1 : FeedbackCollection) (meeting : Js.value)
    (templateName rnd : string) (now : Z) (fb : FeedbackRecord) :
  scheduleFeedback meeting templateName rnd now this = (Ok (Some fb), this1) ->
  no_series (meeting_id meeting) ->
  meetingId fb = Js.or (meeting_id meeting) Null
  /\ feedbackDatabase this1 = feedbackDatabase this ++ [fb]
  /\ (forall rid fb', meetingId fb' = meetingId fb -> matches rid fb' = Ok false)
  /\ (forall answers now',
        (forall fb0, fb0 ∈ feedbackDatabase this -> fb_id fb0 <> fb_id fb) ->
        let this2 := (submitFeedback (fb_id fb) answers now' this1).2 in
        (submitFeedback (fb_id fb) answers now' this1).1 = Ok true
        /\ (exists fb', feedbackDatabase this2 = feedbackDatabase this ++ [fb']
                        /\ meetingId fb' = meetingId fb
                        /\ status fb' = "completed"
                        /\ responses fb' <> [])
        /\ (forall rid,
              (getAggregatedFeedback rid this2).1
              = (getAggregatedFeedback rid this).1))
  /\ (forall rid fb0, matches rid fb0 = Ok true ->
        exists props,
          meetingId fb0 = Obj props
          /\ lookup_prop "recurringMeetingId" props = Some (Str rid)).
Proof.
  intros Hsched Hno.
  apply scheduleFeedback_some in Hsched as (Hm & Hst & Hrs & ->).
  split; [done|]. split; [done|]. split; [|split].
  - intros rid fb' Hm'. rewrite matches_considered. f_equal.
    apply bool_decide_eq_false.
    apply (no_series_not_considered rid (meeting_id meeting)); congruence.
  - intros answers now' Hfresh this2.
    assert (submitFeedback (fb_id fb) answers now'
              (set_database (feedbackDatabase this ++ [fb]) this)
            = (Ok true,
               set_database
                 (feedbackDatabase this ++ [add_response answers now' fb]) this))
      as Hsub.
    { unfold submitFeedback, try_catch, mbind, M_bind, gets, throw. simpl.
      rewrite findIndex_app_fresh.
      - simpl. unfold put_database. simpl. by rewrite alter_last.
      - intros y Hy. apply String.eqb_neq. by apply Hfresh.
      - apply String.eqb_refl. }
    subst this2. rewrite Hsub. simpl. split; [done|]. split.
    + exists (add_response answers now' fb). simpl. repeat split; try done.
      by destruct (responses fb).
    + intros rid. rewrite !getAggregatedFeedback_run. simpl.
      rewrite filter_app, filter_cons, filter_nil.
      rewrite decide_False; [by rewrite app_nil_r|].
      apply (no_series_not_considered rid (meeting_id meeting)); done.
  - intros rid fb0 Hmatch.
    destruct (matches_spec rid fb0) as (b & Hb & Hiff).
    rewrite Hb in Hmatch. injection Hmatch as ->.
    destruct Hiff as [Hc _]. destruct (Hc eq_refl) as (Hs & _).
    unfold series_of in Hs.
    destruct (meetingId fb0) as [| |b|q|s0|props]; try discriminate Hs.
    exists props. split; [done|].
    destruct (lookup_prop _ props) as [[| |b|q|s0|ps]|]; try discriminate Hs.
    by injection Hs as ->.
Qed.

(** The sample meeting of series rec-123, scheduled on a fresh instance
    and answered: no aggregate for rec-123. *)
Lemma scheduled_records_without_series_excluded_witness :
  (getAggregatedFeedback "rec-123"
     (submitFeedback "fb-k3j9x2m1q" answers_1 2
        (scheduleFeedback meeting_1 "standard" "k3j9x2m1q" 1 collection_0).2).2).1
  = Ok None.
Proof.
  pose proof (scheduled_records_without_series_excluded
                collection_0
                (scheduleFeedback meeting_1 "standard" "k3j9x2m1q" 1 collection_0).2
                meeting_1 "standard" "k3j9x2m1q" 1
                {| fb_id := "fb-k3j9x2m1q";
                   meetingId := Str "meeting-1";
                   meetingTitle := Str "Weekly Team Sync";
                   scheduledTime := Num (inject_Z 3600001);
                   template := "standard";
                   status := "scheduled";
                   responses := [] |}) as H.
  destruct H as (_ & _ & _ & Hsubmit & _).
  - vm_compute. reflexivity.
  - vm_compute. exact I.
  - destruct (Hsubmit answers_1 2%Z) as (_ & _ & Hagg).
    + intros fb0 Hin. vm_compute in Hin. by apply elem_of_nil in Hin.
    + simpl in Hagg. rewrite Hagg. vm_compute. reflexivity.
Defined.

End Scheduling.

(** ** The scorer and the calendar evaluator *)

Section ScoringProperties.

Import Scoring.

Lemma validate_valid m : validate m = None <-> valid m.
Proof.
  unfold validate, valid.
  destruct (Z.leb_spec (duration m) 0);
    [split; [discriminate | lia]|].
  destruct (Z.ltb_spec (participantCount m) 1);
    [split; [discriminate | lia]|].
  destruct (Z.ltb_spec (participantCount m) (expectedSpeakerCount m));
    [split; [discriminate | lia]|].
  split; [lia | done].
Qed.

Lemma clamp_range x : 0 <= clamp x <= 100.
Proof.
  unfold clamp.
  destruct (Qltb x 0) eqn:E0; [lra|]. apply Qltb_nlt in E0.
  destruct (Qltb 100 x) eqn:E1; [lra|]. apply Qltb_nlt in E1. lra.
Qed.

Lemma classify_bands w s :
  (highBand w <= s -> classify w s = high)
  /\ (~ highBand w <= s -> mediumBand w <= s -> classify w s = medium)
  /\ (~ highBand w <= s -> ~ mediumBand w <= s -> classify w s = low).
Proof.
  unfold classify.
  destruct (Qle_bool (highBand w) s) eqn:Eh;
    [apply Qle_bool_iff in Eh|];
    (destruct (Qle_bool (mediumBand w) s) eqn:Em;
      [apply Qle_bool_iff in Em|]);
    repeat split; intros; try done;
    try (assert (Qle_bool (highBand w) s = true) by (by apply Qle_bool_iff);
         congruence);
    try (assert (Qle_bool (mediumBand w) s = true) by (by apply Qle_bool_iff);
         congruence).
Qed.

(** C7. For a valid meeting and any weights the scorer returns a score in
    [0, 100] and the band given by the two cut points, a score equal to a
    cut point belonging to the higher band; scenario A with the default
    weights scores 93, band high (for every default high cut point up to
    93). *)
Theorem score_range_and_band (m : Meeting) (w : ScoreWeights) :
  valid m ->
  (exists e,
     evaluate m w = inr e
     /\ 0 <= score e <= 100
     /\ (highBand w <= score e -> band e = high)
     /\ (~ highBand w <= score e -> mediumBand w <= score e -> band e = medium)
     /\ (~ highBand w <= score e -> ~ mediumBand w <= score e -> band e = low))
  /\ (forall hb mb, hb <= 93 ->
        exists e, evaluate scenario_A (SCORE_WEIGHTS hb mb) = inr e
                  /\ score e == 93 /\ band e = high).
Proof.
  intros Hv. split.
  - unfold evaluate. apply validate_valid in Hv. rewrite Hv.
    eexists. split; [reflexivity|]. simpl.
    split; [apply clamp_range|]. apply classify_bands.
  - intros hb mb Hhb. eexists. split; [reflexivity|].
    assert (score_A : clamp (fold_left (fun acc f => acc + f.2)
                        (factors scenario_A (SCORE_WEIGHTS hb mb)) base) == 93).
    { vm_compute. reflexivity. }
    split; [exact score_A|].
    cbn [band]. apply classify_bands. cbn [highBand SCORE_WEIGHTS].
    rewrite score_A. exact Hhb.
Qed.

Lemma score_range_and_band_witness :
  exists e, evaluate scenario_A (SCORE_WEIGHTS 70 40) = inr e
            /\ 0 <= score e <= 100.
Proof.
  destruct (score_range_and_band scenario_A (SCORE_WEIGHTS 70 40))
    as [(e & He & Hr & _) _].
  - vm_compute. repeat split; discriminate.
  - exists e. split; [exact He | exact Hr].
Defined.

(** C8. For a valid meeting the recommendation is consider-decline
    exactly when the band is low and the meeting could not be
    asynchronous, consider-async exactly when it could be asynchronous and
    the band is not high, and keep otherwise; scenario B scores 38, band
    low, recommendation consider-async (for default cut points above
    38). *)
Theorem recommendation_rule (m : Meeting) (w : ScoreWeights) :
  valid m ->
  (exists e,
     evaluate m w = inr e
     /\ (recommendation e = consider_decline
         <-> band e = low /\ couldBeAsync m = false)
     /\ (recommendation e = consider_async
         <-> couldBeAsync m = true /\ band e <> high)
     /\ (recommendation e = keep
         <-> ~ (band e = low /\ couldBeAsync m = false)
             /\ ~ (couldBeAsync m = true /\ band e <> high)))
  /\ (forall hb mb, 38 < hb -> 38 < mb ->
        exists e, evaluate scenario_B (SCORE_WEIGHTS hb mb) = inr e
                  /\ score e == 38 /\ band e = low
                  /\ recommendation e = consider_async).
Proof.
  intros Hv. split.
  - unfold evaluate. apply validate_valid in Hv. rewrite Hv.
    eexists. split; [reflexivity|]. cbn [recommendation band].
    unfold recommend.
    destruct (classify w _), (couldBeAsync m); simpl;
      repeat split; try done; try (intros [? ?]; done);
      intros [H1 H2]; exfalso; first [by apply H1 | by apply H2].
  - intros hb mb Hhb Hmb. eexists. split; [reflexivity|].
    assert (score_B : clamp (fold_left (fun acc f => acc + f.2)
                        (factors scenario_B (SCORE_WEIGHTS hb mb)) base) == 38).
    { vm_compute. reflexivity. }
    split; [exact score_B|].
    assert (classify (SCORE_WEIGHTS hb mb)
              (clamp (fold_left (fun acc f => acc + f.2)
                        (factors scenario_B (SCORE_WEIGHTS hb mb)) base)) = low) as Hlow.
    { apply classify_bands; cbn [highBand mediumBand SCORE_WEIGHTS];
        rewrite score_B; lra. }
    cbn [band recommendation]. rewrite Hlow. done.
Qed.

Lemma recommendation_rule_witness :
  exists e, evaluate scenario_B (SCORE_WEIGHTS 70 40) = inr e
            /\ (recommendation e = consider_async
                <-> couldBeAsync scenario_B = true /\ band e <> high).
Proof.
  destruct (recommendation_rule scenario_B (SCORE_WEIGHTS 70 40))
    as [(e & He & _ & Hr & _) _].
  - vm_compute. repeat split; discriminate.
  - exists e. split; [exact He | exact Hr].
Defined.

Lemma evaluate_invalid m w :
  ~ valid m -> exists fld, evaluate m w = inl {| field := fld; position := None |}.
Proof.
  intros Hn. unfold evaluate.
  destruct (validate m) as [e|] eqn:E.
  - revert E. unfold validate.
    repeat (case_match; [intros [= <-]; eauto|]). discriminate.
  - apply validate_valid in E. done.
Qed.

Lemma evaluate_valid m w : valid m -> exists e, evaluate m w = inr e.
Proof.
  intros Hv. unfold evaluate. apply validate_valid in Hv. rewrite Hv. eauto.
Qed.

(** The pass from position [k]: all meetings valid and one evaluation
    each, or the position of the first invalid one. *)
Lemma evaluateFrom_spec ms w : forall k acc,
  (Forall valid ms
   /\ exists acc', evaluateFrom k ms w acc = inr acc'
        /\ length (s_evaluations acc') = (length (s_evaluations acc) + length ms)%nat
        /\ s_count acc' = (s_count acc + length ms)%nat)
  \/ (exists i m fld,
        ms !! i = Some m /\ ~ valid m /\ Forall valid (take i ms)
        /\ evaluateFrom k ms w acc = inl {| field := fld; position := Some (k + i)%nat |}).
Proof.
  induction ms as [|m ms IH]; intros k acc.
  - left. split; [constructor|]. exists acc. simpl. repeat split; lia.
  - destruct (decide (valid m)) as [Hv|Hn].
    + destruct (evaluate_valid m w Hv) as (e & He). simpl. rewrite He.
      destruct (IH (S k) (add_evaluation acc m e))
        as [(Hall & acc' & Hrun & Hlen & Hcnt)|(i & m' & fld & Hi & Hn & Ht & Hrun)].
      * left. split; [by constructor|]. exists acc'. split; [done|].
        rewrite Hlen, Hcnt. simpl. rewrite length_app. simpl. lia.
      * right. exists (S i), m', fld. simpl. repeat split; try done.
        -- by constructor.
        -- rewrite Hrun. do 3 f_equal. lia.
    + right. destruct (evaluate_invalid m w Hn) as (fld & He).
      exists 0%nat, m, fld. simpl. rewrite He. simpl.
      repeat split; try done. by rewrite Nat.add_0_r.
Qed.

(** C9. [evaluateAll] either evaluates the whole batch, or fails with a
    validation error that carries the position of the first invalid
    meeting (duration <= 0, participantCount < 1 or expectedSpeakerCount >
    participantCount); a failure carries no summary and no evaluation. *)
Theorem evaluateAll_fail_fast (meetings : list Meeting) (w : ScoreWeights) :
  (Forall valid meetings
   /\ exists summary,
        evaluateAll meetings w = inr summary
        /\ length (evaluations summary) = length meetings
        /\ meetingCount summary = length meetings)
  \/ (exists i m fld,
        meetings !! i = Some m
        /\ ((duration m <= 0)%Z \/ (participantCount m < 1)%Z
            \/ (expectedSpeakerCount m > participantCount m)%Z)
        /\ Forall valid (take i meetings)
        /\ evaluateAll meetings w = inl {| field := fld; position := Some i |}).
Proof.
  unfold evaluateAll.
  destruct (evaluateFrom_spec meetings w 0
              {| s_evaluations := []; s_count := 0; s_minutes := 0;
                 s_scores := 0; s_low := 0; s_reclaimable := 0 |})
    as [(Hall & acc' & -> & Hlen & Hcnt)|(i & m & fld & Hi & Hn & Ht & ->)].
  - left. split; [done|]. eexists. split; [reflexivity|]. simpl. done.
  - right. exists i, m, fld. repeat split; try done.
    unfold valid in Hn. lia.
Qed.

(** A batch whose third meeting has no participants fails at position 2. *)
Example evaluateAll_third_invalid :
  evaluateAll
    [scenario_A; scenario_B;
     {| title := "Empty room"; duration := 30; participantCount := 0;
        expectedSpeakerCount := 0; hasAgenda := false; decisionMade := None;
        followUpSent := None; couldBeAsync := false |};
     scenario_A]
    (SCORE_WEIGHTS 70 40)
  = inl {| field := "participantCount"; position := Some 2%nat |}.
Proof. vm_compute. reflexivity. Qed.

End ScoringProperties.

(** ** Scheduling and submitting *)

Section Lifecycle_schedule_submit.

Import Lifecycle.

Lemma read_get v k : ~ nullish v -> Js.get v k = Ok (read v k).
Proof. unfold read. destruct v; simpl; try done; intros H; by destruct H. Qed.

Lemma get_nullish v k : nullish v -> exists msg, Js.get v k = Throw msg.
Proof. destruct v; simpl; try done; eauto. Qed.

(** What [scheduleFeedback] does, case by case. *)
Lemma scheduleFeedback_run meeting templateName rnd now this :
  scheduleFeedback meeting templateName rnd now this
  = if decide (is_Some (surveyTemplates this !! toLowerCase templateName)
               /\ ~ nullish meeting)
    then (Ok (Some (scheduled_record meeting templateName rnd now)),
          set_database
            (feedbackDatabase this ++ [scheduled_record meeting templateName rnd now])
            this)
    else (Ok None, this).
Proof.
  unfold scheduleFeedback, try_catch, mbind, M_bind, gets, throw, lift.
  destruct (surveyTemplates this !! toLowerCase templateName) as [tpl|] eqn:E.
  - destruct (decide (nullish meeting)) as [Hn|Hn].
    + rewrite decide_False by tauto.
      destruct (get_nullish meeting "id" Hn) as (msg & ->). reflexivity.
    + rewrite decide_True by (split; [eauto | done]).
      rewrite !read_get by done. reflexivity.
  - rewrite decide_False; [reflexivity|]. intros [[? [=]] _].
Qed.

(** What [submitFeedback] does, in terms of the first record with the
    id. *)
Lemma find_first {A} (p : A -> bool) (l : list A) :
  match List.find p l with
  | Some x => exists l1 l2, l = l1 ++ x :: l2 /\ p x = true
                            /\ (forall y, y ∈ l1 -> p y = false)
                            /\ findIndex p l = Some (length l1)
  | None => (forall y, y ∈ l -> p y = false) /\ findIndex p l = None
  end.
Proof.
  induction l as [|y l IH]; simpl.
  - split; [|done]. intros y Hy. by apply elem_of_nil in Hy.
  - destruct (p y) eqn:E.
    + exists [], l. repeat split; try done. intros z Hz. by apply elem_of_nil in Hz.
    + destruct (List.find p l) as [x|].
      * destruct IH as (l1 & l2 & -> & Hx & Hl1 & Hi).
        exists (y :: l1), l2. rewrite Hi. repeat split; try done.
        intros z [->|Hz]%elem_of_cons; [done | by apply Hl1].
      * destruct IH as [Hall ->]. split; [|done].
        intros z [->|Hz]%elem_of_cons; [done | by apply Hall].
Qed.

Lemma alter_middle {A} (f : A -> A) (l1 l2 : list A) (x : A) :
  alter f (length l1) (l1 ++ x :: l2) = l1 ++ f x :: l2.
Proof.
  induction l1 as [|y l1 IH]; [done|].
  change (y :: alter f (length l1) (l1 ++ x :: l2) = y :: l1 ++ f x :: l2).
  by rewrite IH.
Qed.

Lemma submitFeedback_run id answers now this :
  submitFeedback id answers now this
  = match record_with_id id this with
    | None => (Ok false, this)
    | Some fb =>
        (Ok true,
         set_database
           (alter (add_response answers now)
              (default 0%nat
                 (findIndex (fun fb => String.eqb (fb_id fb) id) (feedbackDatabase this)))
              (feedbackDatabase this)) this)
    end.
Proof.
  unfold submitFeedback, record_with_id, try_catch, mbind, M_bind, gets, throw.
  pose proof (find_first (fun fb => String.eqb (fb_id fb) id) (feedbackDatabase this)) as H.
  destruct (List.find _ _) as [fb|].
  - destruct H as (l1 & l2 & _ & _ & _ & ->). reflexivity.
  - destruct H as [_ ->]. reflexivity.
Qed.

Lemma record_with_id_split id this fb :
  record_with_id id this = Some fb ->
  exists l1 l2,
    feedbackDatabase this = l1 ++ fb :: l2
    /\ fb_id fb = id
    /\ (forall y, y ∈ l1 -> fb_id y <> id)
    /\ forall answers now,
         submitFeedback id answers now this
         = (Ok true, set_database (l1 ++ add_response answers now fb :: l2) this).
Proof.
  intros Hfind. unfold record_with_id in Hfind.
  pose proof (find_first (fun fb => String.eqb (fb_id fb) id) (feedbackDatabase this)) as H.
  rewrite Hfind in H. destruct H as (l1 & l2 & Hdb & Hp & Hl1 & Hi).
  exists l1, l2. split; [done|]. split; [by apply String.eqb_eq|]. split.
  - intros y Hy. apply String.eqb_neq. by apply Hl1.
  - intros answers now. rewrite submitFeedback_run. unfold record_with_id.
    rewrite Hfind, Hi. simpl. rewrite Hdb at 1. by rewrite alter_middle.
Qed.

Lemma record_with_id_none id this :
  record_with_id id this = None <-> fresh_id id this.
Proof.
  unfold record_with_id, fresh_id.
  pose proof (find_first (fun fb => String.eqb (fb_id fb) id) (feedbackDatabase this)) as H.
  destruct (List.find _ _) as [fb|].
  - destruct H as (l1 & l2 & Hdb & Hp & _). split; [done|]. intros Hf.
    apply String.eqb_eq in Hp. destruct (Hf fb); [|done].
    rewrite Hdb. apply elem_of_app. right. left.
  - destruct H as [Hall _]. split; [|done]. intros _ fb Hin.
    apply String.eqb_neq. by apply Hall.
Qed.



(** X2. A successful [scheduleFeedback] appends exactly one record and
    touches nothing else: the record has the id fb- followed by the random
    text, the template name as given, status scheduled, no responses, the
    meeting's title and [meeting.id || null]; earlier records, templates
    and channels stay. *)
Theorem scheduleFeedback_appends meeting templateName rnd now this fb this1 :
  scheduleFeedback meeting templateName rnd now this = (Ok (Some fb), this1) ->
  feedbackDatabase this1 = feedbackDatabase this ++ [fb]
  /\ surveyTemplates this1 = surveyTemplates this
  /\ notificationChannels this1 = notificationChannels this
  /\ fb_id fb = "fb-" +:+ rnd
  /\ template fb = templateName
  /\ status fb = "scheduled"
  /\ responses fb = []
  /\ meetingTitle fb = read meeting "title"
  /\ meetingId fb = Js.or (read meeting "id") Null.
Proof.
  rewrite scheduleFeedback_run. destruct (decide _); [|discriminate].
  intros [= <- <-]. simpl. done.
Qed.

Lemma scheduleFeedback_appends_witness :
  feedbackDatabase (scheduleFeedback meeting_1 "standard" "k3j9x2m1q" 1 collection_0).2
  = feedbackDatabase collection_0
    ++ [scheduled_record meeting_1 "standard" "k3j9x2m1q" 1].
Proof.
  apply (scheduleFeedback_appends meeting_1 "standard" "k3j9x2m1q" 1 collection_0).
  vm_compute. reflexivity.
Defined.

(** X3. Scheduling never changes an aggregate: for every queried id the
    result of [getAggregatedFeedback] after [scheduleFeedback] is the one
    before, whether scheduling succeeded or not. *)
Theorem scheduleFeedback_keeps_aggregates meeting templateName rnd now this rid :
  (getAggregatedFeedback rid (scheduleFeedback meeting templateName rnd now this).2).1
  = (getAggregatedFeedback rid this).1.
Proof.
  rewrite scheduleFeedback_run. destruct (decide _); [|done].
  rewrite !getAggregatedFeedback_run. simpl.
  rewrite filter_app, filter_cons, filter_nil.
  rewrite decide_False; [by rewrite app_nil_r|].
  intros (_ & Hst & _). discriminate Hst.
Qed.

(** X4. [submitFeedback] never throws; it returns [true] exactly when
    some record has the id, and otherwise returns [false] and leaves the
    instance unchanged. *)
Theorem submitFeedback_true_iff id answers now this :
  ((submitFeedback id answers now this).1 = Ok true
   <-> exists fb, fb ∈ feedbackDatabase this /\ fb_id fb = id)
  /\ ((submitFeedback id answers now this).1 = Ok false <-> fresh_id id this)
  /\ (fresh_id id this -> submitFeedback id answers now this = (Ok false, this)).
Proof.
  rewrite submitFeedback_run.
  destruct (record_with_id id this) as [fb|] eqn:E.
  - destruct (record_with_id_split _ _ _ E) as (l1 & l2 & Hdb & Hid & _).
    assert (fb ∈ feedbackDatabase this) as Hin
      by (rewrite Hdb; apply elem_of_app; right; left).
    simpl. split; [split; eauto|]. split.
    + split; [discriminate|]. intros Hf. by destruct (Hf fb).
    + intros Hf. by destruct (Hf fb).
  - apply record_with_id_none in E. simpl. split; [|done].
    split; [discriminate|]. intros (fb & Hin & Hid). by destruct (E fb).
Qed.

Lemma submitFeedback_at id answers now this l1 fb l2 :
  feedbackDatabase this = l1 ++ fb :: l2 ->
  fb_id fb = id ->
  (forall y, y ∈ l1 -> fb_id y <> id) ->
  submitFeedback id answers now this
  = (Ok true, set_database (l1 ++ add_response answers now fb :: l2) this).
Proof.
  intros Hdb Hid Hl1.
  rewrite submitFeedback_run. unfold record_with_id.
  pose proof (find_first (fun fb => String.eqb (fb_id fb) id) (feedbackDatabase this)) as H.
  assert (findIndex (fun fb => String.eqb (fb_id fb) id) (feedbackDatabase this)
          = Some (length l1)) as Hi.
  { rewrite Hdb. clear Hdb H. induction l1 as [|y l1 IH]; simpl.
    - by rewrite (proj2 (String.eqb_eq _ _) Hid).
    - rewrite (proj2 (String.eqb_neq _ _) (Hl1 y ltac:(left))).
      rewrite IH; [done|]. intros z Hz. apply Hl1. by right. }
  destruct (List.find _ _) as [x|].
  - rewrite Hi. simpl. rewrite Hdb at 1. by rewrite alter_middle.
  - destruct H as [_ Hnone]. rewrite Hnone in Hi. discriminate.
Qed.

(** X5. A successful [submitFeedback] changes one record only, the first
    that has the id: it gets the new response at the end of its responses
    and status completed; records before and after it, later records with
    the same id included, and templates and channels are as before. *)
Theorem submitFeedback_updates_first id answers now this l1 fb l2 :
  feedbackDatabase this = l1 ++ fb :: l2 ->
  fb_id fb = id ->
  (forall y, y ∈ l1 -> fb_id y <> id) ->
  exists fb',
    submitFeedback id answers now this
      = (Ok true, set_database (l1 ++ fb' :: l2) this)
    /\ responses fb' = responses fb ++ [{| timestamp := now; data := answers |}]
    /\ status fb' = "completed"
    /\ fb_id fb' = fb_id fb
    /\ meetingId fb' = meetingId fb
    /\ meetingTitle fb' = meetingTitle fb
    /\ template fb' = template fb.
Proof.
  intros Hdb Hid Hl1. exists (add_response answers now fb).
  split; [by apply submitFeedback_at | done].
Qed.

Lemma submitFeedback_updates_first_witness :
  exists fb',
    submitFeedback "fb-2" answers_2 4 collection_1
      = (Ok true, set_database ([record_1] ++ fb' :: [record_3]) collection_1)
    /\ responses fb' = responses record_2 ++ [{| timestamp := 4; data := answers_2 |}]
    /\ status fb' = "completed"
    /\ fb_id fb' = fb_id record_2
    /\ meetingId fb' = meetingId record_2
    /\ meetingTitle fb' = meetingTitle record_2
    /\ template fb' = template record_2.
Proof.
  apply (submitFeedback_updates_first "fb-2" answers_2 4 collection_1
           [record_1] record_2 [record_3]).
  - reflexivity.
  - reflexivity.
  - intros y Hy. apply list_elem_of_singleton in Hy as ->. vm_compute. discriminate.
Defined.

(** X6. Feedback can be resubmitted: two submissions for the same id
    both succeed and both stay, in the order they were made, at the end
    of the responses of the same record. *)
Theorem submitFeedback_twice id a1 t1 a2 t2 this l1 fb l2 :
  feedbackDatabase this = l1 ++ fb :: l2 ->
  fb_id fb = id ->
  (forall y, y ∈ l1 -> fb_id y <> id) ->
  let this1 := (submitFeedback id a1 t1 this).2 in
  exists fb'',
    (submitFeedback id a1 t1 this).1 = Ok true
    /\ submitFeedback id a2 t2 this1
       = (Ok true, set_database (l1 ++ fb'' :: l2) this)
    /\ responses fb''
       = responses fb ++ [{| timestamp := t1; data := a1 |};
                          {| timestamp := t2; data := a2 |}]
    /\ status fb'' = "completed".
Proof.
  intros Hdb Hid Hl1 this1. subst this1.
  rewrite (submitFeedback_at id a1 t1 this l1 fb l2) by done. simpl.
  exists (add_response a2 t2 (add_response a1 t1 fb)).
  split; [done|]. split.
  - by rewrite (submitFeedback_at id a2 t2 _ l1 (add_response a1 t1 fb) l2).
  - simpl. by rewrite <- app_assoc.
Qed.

Lemma submitFeedback_twice_witness :
  exists fb'',
    (submitFeedback "fb-1" answers_2 5 collection_1).1 = Ok true
    /\ submitFeedback "fb-1" answers_1 6
         (submitFeedback "fb-1" answers_2 5 collection_1).2
       = (Ok true, set_database ([] ++ fb'' :: [record_2; record_3]) collection_1)
    /\ responses fb''
       = responses record_1 ++ [{| timestamp := 5; data := answers_2 |};
                                {| timestamp := 6; data := answers_1 |}]
    /\ status fb'' = "completed".
Proof.
  apply (submitFeedback_twice "fb-1" answers_2 5 answers_1 6 collection_1
           [] record_1 [record_2; record_3]).
  - reflexivity.
  - reflexivity.
  - intros y Hy. by apply elem_of_nil in Hy.
Defined.

Lemma series_of_add_response answers now fb :
  series_of (add_response answers now fb) = series_of fb.
Proof. reflexivity. Qed.

Lemma considered_add_response rid answers now fb :
  considered rid (add_response answers now fb) <-> series_of fb = Some rid.
Proof.
  unfold considered. rewrite series_of_add_response. simpl.
  split; [by intros (? & _) | intros H; repeat split; try done].
  by destruct (responses fb).
Qed.

(** [totalResponses] of the result counts the responses of the
    considered records. *)
Lemma total_of_aggregate rid this :
  total_of (getAggregatedFeedback rid this).1
  = length (all_responses (filter (considered rid) (feedbackDatabase this))).
Proof.
  rewrite getAggregatedFeedback_run. simpl.
  destruct (filter (considered rid) (feedbackDatabase this)) as [|x l] eqn:E;
    [reflexivity|].
  pose proof (considered_total_pos _ _ _ _ E) as Hpos.
  rewrite aggregate_items_cons by (rewrite loop_total; exact Hpos).
  simpl. by rewrite loop_total.
Qed.

Lemma all_responses_cons fb l :
  all_responses (fb :: l) = responses fb ++ all_responses l.
Proof. reflexivity. Qed.

Lemma all_responses_app l1 l2 :
  all_responses (l1 ++ l2) = all_responses l1 ++ all_responses l2.
Proof. unfold all_responses. by rewrite map_app, concat_app. Qed.

(** X7. A submission to a record of another series leaves the aggregate
    of a series as it was: if the record [submitFeedback] picks for the id
    (if any) does not belong to the queried series, the result of
    [getAggregatedFeedback] is the same before and after. *)
Theorem submitFeedback_other_series id answers now this rid :
  (forall fb, record_with_id id this = Some fb -> series_of fb <> Some rid) ->
  (getAggregatedFeedback rid (submitFeedback id answers now this).2).1
  = (getAggregatedFeedback rid this).1.
Proof.
  intros Hother.
  destruct (record_with_id id this) as [fb|] eqn:E.
  - destruct (record_with_id_split _ _ _ E) as (l1 & l2 & Hdb & _ & _ & Hrun).
    rewrite Hrun, !getAggregatedFeedback_run. simpl. rewrite Hdb.
    rewrite !filter_app, !filter_cons.
    rewrite (decide_False (P := considered rid (add_response answers now fb))).
    + rewrite (decide_False (P := considered rid fb)); [done|].
      intros (Hs & _). by apply (Hother fb).
    + rewrite considered_add_response. by apply Hother.
  - rewrite submitFeedback_run, E. done.
Qed.

Lemma submitFeedback_other_series_witness :
  (getAggregatedFeedback "rec-123" (submitFeedback "fb-3" answers_2 5 collection_1).2).1
  = (getAggregatedFeedback "rec-123" collection_1).1.
Proof.
  apply (submitFeedback_other_series "fb-3" answers_2 5 collection_1 "rec-123").
  intros fb Hfb. vm_compute in Hfb. injection Hfb as <-. vm_compute. discriminate.
Defined.

(** X8. A submission to a record of the queried series adds exactly one
    to [totalResponses] (counted from 0 when there was no aggregate yet),
    provided the record was scheduled without responses or completed with
    some; afterwards there is an aggregate. *)
Theorem submitFeedback_counts_one id answers now this rid fb :
  record_with_id id this = Some fb ->
  series_of fb = Some rid ->
  record_ok fb ->
  total_of (getAggregatedFeedback rid (submitFeedback id answers now this).2).1
    = S (total_of (getAggregatedFeedback rid this).1)
  /\ exists a, (getAggregatedFeedback rid (submitFeedback id answers now this).2).1
               = Ok (Some a).
Proof.
  intros E Hs Hok.
  destruct (record_with_id_split _ _ _ E) as (l1 & l2 & Hdb & _ & _ & Hrun).
  assert (total_of (getAggregatedFeedback rid (submitFeedback id answers now this).2).1
          = S (total_of (getAggregatedFeedback rid this).1)) as Htot.
  { rewrite !total_of_aggregate, Hrun. simpl. rewrite Hdb.
    rewrite !filter_app, !filter_cons.
    rewrite (decide_True (P := considered rid (add_response answers now fb)))
      by (by apply considered_add_response).
    destruct (decide (considered rid fb)) as [Hc|Hn].
    - rewrite !all_responses_app, !all_responses_cons, !length_app.
      simpl. rewrite !length_app. simpl. lia.
    - assert (responses fb = []) as Hnil.
      { destruct Hok as [[_ ?]|[Hst Hne]]; [done|]. destruct Hn. done. }
      rewrite !all_responses_app, !all_responses_cons, !length_app.
      simpl. rewrite Hnil. simpl. lia. }
  split; [exact Htot|].
  destruct (getAggregatedFeedback rid (submitFeedback id answers now this).2).1
    as [[a|]|msg] eqn:Er; simpl in Htot; try discriminate Htot.
  eauto.
Qed.

Lemma submitFeedback_counts_one_witness :
  total_of (getAggregatedFeedback "rec-123"
              (submitFeedback "fb-2" answers_2 5 collection_1).2).1
  = S (total_of (getAggregatedFeedback "rec-123" collection_1).1).
Proof.
  apply (submitFeedback_counts_one "fb-2" answers_2 5 collection_1 "rec-123" record_2).
  - reflexivity.
  - reflexivity.
  - left. split; reflexivity.
Defined.



(** X10. The title of the aggregate is the title of the first considered
    record, so it depends on the order of the database: exchanging two
    considered records at the head exchanges which title is reported. *)
Theorem aggregate_title_follows_order this rid fb1 fb2 rest :
  feedbackDatabase this = fb1 :: fb2 :: rest ->
  considered rid fb1 ->
  considered rid fb2 ->
  exists a a',
    (getAggregatedFeedback rid this).1 = Ok (Some a)
    /\ (getAggregatedFeedback rid (set_database (fb2 :: fb1 :: rest) this)).1
       = Ok (Some a')
    /\ aggTitle a = meetingTitle fb1
    /\ aggTitle a' = meetingTitle fb2.
Proof.
  intros Hdb H1 H2. rewrite !getAggregatedFeedback_run. simpl. rewrite Hdb.
  rewrite !filter_cons, !decide_True by done.
  assert (forall x y l, considered rid x ->
            (0 < l_totalResponses
                   (fold_left process_response (all_responses (x :: y :: l))
                      initial_loop))%nat) as Hpos.
  { intros x y l (_ & _ & Hne). rewrite loop_total. unfold all_responses. simpl.
    rewrite length_app. destruct (responses x); [done | simpl; lia]. }
  rewrite !aggregate_items_cons by (by apply Hpos).
  do 2 eexists. repeat split.
Qed.

Lemma aggregate_title_follows_order_witness :
  exists a a',
    (getAggregatedFeedback "rec-123"
       (set_database [record_1; record_4] new_collection)).1 = Ok (Some a)
    /\ (getAggregatedFeedback "rec-123"
          (set_database [record_4; record_1]
             (set_database [record_1; record_4] new_collection))).1
       = Ok (Some a')
    /\ aggTitle a = Str "Weekly Team Sync"
    /\ aggTitle a' = Str "Team Sync (renamed)".
Proof.
  apply (aggregate_title_follows_order
           (set_database [record_1; record_4] new_collection) "rec-123"
           record_1 record_4 []).
  - reflexivity.
  - repeat split; done.
  - repeat split; done.
Defined.

End Lifecycle_schedule_submit.

(** ** Templates and surveys *)

Section Lifecycle_templates.

Import Lifecycle.

Lemma lower_ascii_idempotent c : lower_ascii (lower_ascii c) = lower_ascii c.
Proof.
  destruct c as [b0 b1 b2 b3 b4 b5 b6 b7].
  destruct b0, b1, b2, b3, b4, b5, b6, b7; reflexivity.
Qed.

Lemma toLowerCase_idempotent s : toLowerCase (toLowerCase s) = toLowerCase s.
Proof.
  induction s as [|c s IH]; [reflexivity|].
  simpl. by rewrite lower_ascii_idempotent, IH.
Qed.

Lemma initialize_run options this :
  initialize options this
  = match options with
    | None => (Ok false, this)
    | Some o =>
        (Ok true,
         (createDefaultTemplates
            (match opt_notificationChannels o with
             | Some override => set_channels (override ∪ notificationChannels this) this
             | None => this
             end)).2)
    end.
Proof.
  unfold initialize, try_catch, mbind, M_bind, throw.
  destruct options as [[[override|]]|]; reflexivity.
Qed.

Lemma createCustomTemplate_run name questions this :
  createCustomTemplate name questions this
  = match questions with
    | Some (q :: qs) =>
        if String.eqb name "" then (Ok false, this)
        else (Ok true,
              set_templates
                (<[toLowerCase name := {| t_name := name; t_questions := q :: qs |}]>
                   (surveyTemplates this)) this)
    | _ => (Ok false, this)
    end.
Proof.
  unfold createCustomTemplate, try_catch, mbind, M_bind, throw.
  destruct questions as [[|q qs]|]; destruct (String.eqb name ""); reflexivity.
Qed.

(** X11. [initialize] fails only for a [null] argument, and then changes
    nothing. Otherwise it returns [true], keeps the database, stores the
    three default templates under standard, brief and detailed (replacing
    whatever was stored there), keeps every other template, and merges the
    channel settings: a channel named in the options takes the option's
    value, every other channel keeps its own. *)
Theorem initialize_effect options this :
  match options with
  | None => initialize None this = (Ok false, this)
  | Some o =>
      exists this',
        initialize (Some o) this = (Ok true, this')
        /\ feedbackDatabase this' = feedbackDatabase this
        /\ surveyTemplates this' !! "standard" = Some standard_template
        /\ surveyTemplates this' !! "brief" = Some brief_template
        /\ surveyTemplates this' !! "detailed" = Some detailed_template
        /\ (forall k, k <> "standard" -> k <> "brief" -> k <> "detailed" ->
              surveyTemplates this' !! k = surveyTemplates this !! k)
        /\ (forall k,
              notificationChannels this' !! k
              = match opt_notificationChannels o with
                | Some override =>
                    match override !! k with
                    | Some b => Some b
                    | None => notificationChannels this !! k
                    end
                | None => notificationChannels this !! k
                end)
  end.
Proof.
  destruct options as [o|]; rewrite initialize_run; [|reflexivity].
  eexists. split; [reflexivity|].
  assert (forall base : FeedbackCollection,
            surveyTemplates (createDefaultTemplates base).2 !! "standard"
              = Some standard_template
            /\ surveyTemplates (createDefaultTemplates base).2 !! "brief"
              = Some brief_template
            /\ surveyTemplates (createDefaultTemplates base).2 !! "detailed"
              = Some detailed_template
            /\ (forall k, k <> "standard" -> k <> "brief" -> k <> "detailed" ->
                  surveyTemplates (createDefaultTemplates base).2 !! k
                  = surveyTemplates base !! k)) as Hdefaults.
  { intros base. simpl. repeat split.
    - rewrite !lookup_insert_ne by discriminate. apply lookup_insert_eq.
    - rewrite lookup_insert_ne by discriminate. apply lookup_insert_eq.
    - apply lookup_insert_eq.
    - intros k H1 H2 H3. by rewrite !lookup_insert_ne by done. }
  destruct (opt_notificationChannels o) as [override|].
  - destruct (Hdefaults (set_channels (override ∪ notificationChannels this) this))
      as (H1 & H2 & H3 & H4).
    split; [done|]. split; [exact H1|]. split; [exact H2|]. split; [exact H3|].
    split; [exact H4|]. intros k. simpl. rewrite lookup_union.
    by destruct (override !! k), (notificationChannels this !! k).
  - destruct (Hdefaults this) as (H1 & H2 & H3 & H4).
    split; [done|]. split; [exact H1|]. split; [exact H2|]. split; [exact H3|].
    split; [exact H4|]. done.
Qed.

(** X12. [createCustomTemplate] never throws; it returns [true] exactly
    when the name is not empty and the questions are a non-empty array,
    and otherwise returns [false] and leaves the instance unchanged. *)
Theorem createCustomTemplate_true_iff name questions this :
  ((createCustomTemplate name questions this).1 = Ok true
   <-> name <> "" /\ exists q qs, questions = Some (q :: qs))
  /\ ((createCustomTemplate name questions this).1 = Ok false
      <-> name = "" \/ questions = None \/ questions = Some [])
  /\ ((createCustomTemplate name questions this).1 = Ok false ->
      (createCustomTemplate name questions this).2 = this).
Proof.
  rewrite createCustomTemplate_run.
  destruct questions as [[|q qs]|]; simpl.
  - split; [split; [discriminate | intros (_ & ? & ? & [=])]|]. split; [|done].
    split; [by right; right | done].
  - destruct (String.eqb_spec name ""); simpl.
    + split; [split; [discriminate | by intros []]|]. split; [|done].
      split; [by left | done].
    + split; [split; [eauto | done]|]. split; [|discriminate].
      split; [discriminate | intros [?|[[=]|[=]]]; done].
  - split; [split; [discriminate | intros (_ & ? & ? & [=])]|]. split; [|done].
    split; [by right; left | done].
Qed.

(** X13. A custom template can be read back: after a successful
    [createCustomTemplate] under an ASCII name other than [__proto__] in
    any letter case, the template, with the name as given and the
    questions, is stored under the lower-cased name; every other template,
    the database and the channels are unchanged. *)
Theorem createCustomTemplate_stores name qs this :
  name <> "" ->
  qs <> [] ->
  is_ascii name = true ->
  toLowerCase name <> "__proto__" ->
  let this' := (createCustomTemplate name (Some qs) this).2 in
  surveyTemplates this' !! toLowerCase name
    = Some {| t_name := name; t_questions := qs |}
  /\ (forall k, k <> toLowerCase name ->
        surveyTemplates this' !! k = surveyTemplates this !! k)
  /\ feedbackDatabase this' = feedbackDatabase this
  /\ notificationChannels this' = notificationChannels this.
Proof.
  intros Hname Hqs _ _ this'. subst this'. rewrite createCustomTemplate_run.
  destruct qs as [|q qs]; [done|].
  destruct (String.eqb_spec name ""); [done|]. simpl.
  split; [by rewrite lookup_insert_eq|]. split; [|done].
  intros k Hk. by rewrite lookup_insert_ne.
Qed.

Lemma createCustomTemplate_stores_witness :
  surveyTemplates (createCustomTemplate "Retro" (Some [q_blockers]) collection_0).2
    !! "retro"
  = Some {| t_name := "Retro"; t_questions := [q_blockers] |}.
Proof.
  apply (createCustomTemplate_stores "Retro" [q_blockers] collection_0);
    first [discriminate | reflexivity].
Defined.

(** X14. Template names that differ only in case share one slot: a
    custom template created under a name replaces the one created under a
    name with the same lower-case form, the defaults included. *)
Theorem createCustomTemplate_same_slot name1 qs1 name2 qs2 this :
  toLowerCase name1 = toLowerCase name2 ->
  name2 <> "" ->
  qs2 <> [] ->
  (createCustomTemplate name2 (Some qs2)
     (createCustomTemplate name1 (Some qs1) this).2).2
  = (createCustomTemplate name2 (Some qs2) this).2.
Proof.
  intros Hlow Hname Hqs. rewrite !createCustomTemplate_run.
  destruct qs2 as [|q2 qs2]; [done|].
  destruct (String.eqb_spec name2 ""); [done|].
  destruct qs1 as [|q1 qs1]; [done|].
  destruct (String.eqb name1 ""); [done|]. simpl.
  unfold set_templates. simpl. rewrite Hlow. by rewrite insert_insert_eq.
Qed.

Lemma createCustomTemplate_same_slot_witness :
  (createCustomTemplate "STANDARD" (Some [q_blockers])
     (createCustomTemplate "Standard" (Some [q_decision_made]) collection_0).2).2
  = (createCustomTemplate "STANDARD" (Some [q_blockers]) collection_0).2.
Proof.
  apply (createCustomTemplate_same_slot
           "Standard" [q_decision_made] "STANDARD" [q_blockers] collection_0).
  - reflexivity.
  - discriminate.
  - discriminate.
Defined.



Lemma record_with_id_appended this fb :
  fresh_id (fb_id fb) this ->
  record_with_id (fb_id fb) (set_database (feedbackDatabase this ++ [fb]) this)
  = Some fb.
Proof.
  unfold record_with_id, fresh_id. simpl.
  induction (feedbackDatabase this) as [|y l IH]; intros Hfresh; simpl.
  - by rewrite String.eqb_refl.
  - rewrite (proj2 (String.eqb_neq _ _) (Hfresh y ltac:(left))).
    apply IH. intros z Hz. apply Hfresh. by right.
Qed.

Lemma getFeedbackSurvey_run id this :
  getFeedbackSurvey id this
  = (Ok (fb ← record_with_id id this;
         tpl ← surveyTemplates this !! template fb;
         Some {| survey_id := fb_id fb;
                 survey_meetingTitle := meetingTitle fb;
                 survey_questions := t_questions tpl |}),
     this).
Proof.
  unfold getFeedbackSurvey, record_with_id, try_catch, mbind at 1 2, M_bind, gets, throw.
  destruct (List.find _ _) as [fb|]; [|reflexivity]. simpl.
  destruct (surveyTemplates this !! template fb); reflexivity.
Qed.

(** X16. Template keys stay lower-case: a new instance has this property
    and [initialize], [createCustomTemplate], [scheduleFeedback] and
    [submitFeedback] keep it, whatever their arguments. *)
Theorem template_keys_stay_lowercase this :
  keys_lowercase this ->
  keys_lowercase new_collection
  /\ (forall options, keys_lowercase (initialize options this).2)
  /\ (forall name questions, keys_lowercase (createCustomTemplate name questions this).2)
  /\ (forall meeting templateName rnd now,
        keys_lowercase (scheduleFeedback meeting templateName rnd now this).2)
  /\ (forall id answers now, keys_lowercase (submitFeedback id answers now this).2).
Proof.
  intros Hinv. split; [|split; [|split; [|split]]].
  - intros k [tpl Hk]. simpl in Hk. by rewrite lookup_empty in Hk.
  - intros options. rewrite initialize_run.
    destruct options as [o|]; [|exact Hinv]. simpl.
    assert (forall base, keys_lowercase base ->
              keys_lowercase (createDefaultTemplates base).2) as Hdef.
    { intros base Hb k. simpl.
      destruct (decide (k = "detailed")) as [->|H1]; [done|].
      destruct (decide (k = "brief")) as [->|H2]; [done|].
      destruct (decide (k = "standard")) as [->|H3]; [done|].
      rewrite !lookup_insert_ne by done. apply Hb. }
    apply Hdef. destruct (opt_notificationChannels o); exact Hinv.
  - intros name questions. rewrite createCustomTemplate_run.
    destruct questions as [[|q qs]|]; try exact Hinv.
    destruct (String.eqb name ""); [exact Hinv|]. simpl.
    intros k. simpl.
    destruct (decide (k = toLowerCase name)) as [->|Hk].
    + intros _. apply toLowerCase_idempotent.
    + rewrite lookup_insert_ne by done. apply Hinv.
  - intros meeting templateName rnd now. rewrite scheduleFeedback_run.
    destruct (decide _); exact Hinv.
  - intros id answers now. rewrite submitFeedback_run.
    destruct (record_with_id id this); exact Hinv.
Qed.

Lemma template_keys_stay_lowercase_witness :
  keys_lowercase (createCustomTemplate "Retro" (Some [q_blockers]) new_collection).2.
Proof.
  apply (template_keys_stay_lowercase new_collection).
  intros k [tpl Hk]. simpl in Hk. by rewrite lookup_empty in Hk.
Defined.

(** X17. Responses and status go together: if every record is either
    scheduled without responses or completed with some, this is still so
    after [scheduleFeedback], [submitFeedback], [initialize] and
    [createCustomTemplate]; and then the aggregator's test on the number
    of responses adds nothing to its test on the status. *)
Theorem database_stays_ok this :
  database_ok this ->
  database_ok new_collection
  /\ (forall meeting templateName rnd now,
        database_ok (scheduleFeedback meeting templateName rnd now this).2)
  /\ (forall id answers now, database_ok (submitFeedback id answers now this).2)
  /\ (forall options, database_ok (initialize options this).2)
  /\ (forall name questions, database_ok (createCustomTemplate name questions this).2)
  /\ (forall rid fb, fb ∈ feedbackDatabase this ->
        considered rid fb <-> series_of fb = Some rid /\ status fb = "completed").
Proof.
  unfold database_ok. intros Hinv. split; [|split; [|split; [|split; [|split]]]].
  - constructor.
  - intros meeting templateName rnd now. rewrite scheduleFeedback_run.
    destruct (decide _); [|exact Hinv]. simpl.
    apply Forall_app. split; [exact Hinv|]. constructor; [|constructor].
    left. done.
  - intros id answers now.
    destruct (record_with_id id this) as [fb|] eqn:E.
    + destruct (record_with_id_split _ _ _ E) as (l1 & l2 & Hdb & _ & _ & Hrun).
      rewrite Hrun. simpl. rewrite Hdb in Hinv.
      apply Forall_app in Hinv as [H1 H2]. apply Forall_cons in H2 as [_ H2].
      apply Forall_app. split; [done|]. constructor; [|done].
      right. simpl. split; [done|]. by destruct (responses fb).
    + rewrite submitFeedback_run, E. exact Hinv.
  - intros options. rewrite initialize_run.
    destruct options as [o|]; [|exact Hinv].
    destruct (opt_notificationChannels o); exact Hinv.
  - intros name questions. rewrite createCustomTemplate_run.
    destruct questions as [[|q qs]|]; try exact Hinv.
    destruct (String.eqb name ""); exact Hinv.
  - intros rid fb Hin. rewrite Forall_forall in Hinv.
    specialize (Hinv fb Hin). unfold considered.
    split; [by intros (? & ? & _)|]. intros [Hs Hst].
    destruct Hinv as [[Hsch _]|[_ Hne]]; [|done].
    rewrite Hsch in Hst. discriminate Hst.
Qed.

Lemma database_stays_ok_witness :
  database_ok (submitFeedback "fb-2" answers_2 5 collection_1).2.
Proof.
  apply (database_stays_ok collection_1).
  unfold database_ok, collection_1. simpl.
  constructor; [by right|]. constructor; [by left|].
  constructor; [by right|]. constructor.
Defined.

(** X18. On an instance whose templates object has its original
    prototype, and for an id whose first record does not name a property
    inherited from [Object.prototype] as its template, [getFeedbackSurvey]
    only reads and does not throw: the instance is unchanged; the result
    is [null] when no record has the id; a survey is returned exactly when
    the first record with the id names, letter for letter, a key of the
    templates, and then it carries that record's id and title and that
    template's questions. *)
Theorem getFeedbackSurvey_reads id this :
  plain_templates this ->
  (forall fb, record_with_id id this = Some fb -> inherited_key (template fb) = false) ->
  (getFeedbackSurvey id this).2 = this
  /\ (fresh_id id this -> (getFeedbackSurvey id this).1 = Ok None)
  /\ (forall sv,
        (getFeedbackSurvey id this).1 = Ok (Some sv)
        <-> exists fb tpl,
              record_with_id id this = Some fb
              /\ surveyTemplates this !! template fb = Some tpl
              /\ sv = {| survey_id := fb_id fb;
                         survey_meetingTitle := meetingTitle fb;
                         survey_questions := t_questions tpl |})
  /\ exists r, (getFeedbackSurvey id this).1 = Ok r.
Proof.
  intros _ _.
  rewrite getFeedbackSurvey_run. simpl. split; [done|]. split; [|split; [|eauto]].
  - intros Hf. apply record_with_id_none in Hf. by rewrite Hf.
  - intros sv. destruct (record_with_id id this) as [fb|]; simpl.
    + destruct (surveyTemplates this !! template fb) as [tpl|] eqn:E; simpl.
      * split; [intros [= <-]; eauto|].
        intros (fb' & tpl' & [= <-] & Ht & ->). rewrite E in Ht.
        by injection Ht as <-.
      * split; [discriminate|].
        intros (fb' & tpl' & [= <-] & Ht & _). rewrite E in Ht. discriminate Ht.
    + split; [discriminate|]. by intros (? & ? & [=] & _).
Qed.

Lemma getFeedbackSurvey_reads_witness :
  (getFeedbackSurvey "fb-1" (set_database [record_1; record_2; record_3] collection_0)).2
  = set_database [record_1; record_2; record_3] collection_0.
Proof.
  apply (getFeedbackSurvey_reads "fb-1"
           (set_database [record_1; record_2; record_3] collection_0)).
  - reflexivity.
  - intros fb Hfb. vm_compute in Hfb. injection Hfb as <-. reflexivity.
Defined.



(** X20. The two lookups disagree on case: [scheduleFeedback] finds the
    template under the lower-cased name but stores the name as given, and
    [getFeedbackSurvey] looks the stored name up as it is. With
    lower-case template keys on a templates object with its original
    prototype, a record scheduled under an ASCII name that is not all
    lower-case (and is not a property inherited from [Object.prototype])
    is scheduled but has no survey: [getFeedbackSurvey] returns [null] for
    it. *)
Theorem scheduled_with_capitals_has_no_survey meeting templateName rnd now this fb this1 :
  keys_lowercase this ->
  plain_templates this ->
  is_ascii templateName = true ->
  inherited_key templateName = false ->
  toLowerCase templateName <> templateName ->
  fresh_id ("fb-" +:+ rnd) this ->
  scheduleFeedback meeting templateName rnd now this = (Ok (Some fb), this1) ->
  getFeedbackSurvey (fb_id fb) this1 = (Ok None, this1).
Proof.
  intros Hkeys _ _ _ Hcase Hfresh. rewrite scheduleFeedback_run.
  destruct (decide _) as [[Ht Hm]|]; [|discriminate]. intros [= <- <-].
  rewrite getFeedbackSurvey_run. simpl.
  assert (record_with_id ("fb-" +:+ rnd)
            (set_database
               (feedbackDatabase this ++ [scheduled_record meeting templateName rnd now])
               this)
          = Some (scheduled_record meeting templateName rnd now)) as ->.
  { by apply (record_with_id_appended this
                 (scheduled_record meeting templateName rnd now)). }
  simpl. destruct (surveyTemplates this !! templateName) as [tpl|] eqn:E; [|done].
  destruct Hcase. apply Hkeys. eauto.
Qed.

Lemma scheduled_with_capitals_has_no_survey_witness :
  getFeedbackSurvey "fb-k3j9x2m1q"
    (scheduleFeedback meeting_1 "Standard" "k3j9x2m1q" 1 collection_0).2
  = (Ok None, (scheduleFeedback meeting_1 "Standard" "k3j9x2m1q" 1 collection_0).2).
Proof.
  apply (scheduled_with_capitals_has_no_survey meeting_1 "Standard" "k3j9x2m1q" 1
           collection_0 (scheduled_record meeting_1 "Standard" "k3j9x2m1q" 1)).
  - intros k [tpl Hk]. unfold collection_0 in Hk. simpl in Hk.
    destruct (decide (k = "detailed")) as [->|H1]; [done|].
    destruct (decide (k = "brief")) as [->|H2]; [done|].
    destruct (decide (k = "standard")) as [->|H3]; [done|].
    rewrite !lookup_insert_ne in Hk by done. by rewrite lookup_empty in Hk.
  - reflexivity.
  - reflexivity.
  - reflexivity.
  - discriminate.
  - intros fb Hin. vm_compute in Hin. by apply elem_of_nil in Hin.
  - vm_compute. reflexivity.
Defined.

End Lifecycle_templates.

(** ** Processing and the routes *)

Section Lifecycle_processing.

Import Lifecycle.

Lemma process_loop_spec clock db : forall n,
  (process_loop clock n db).2 = (n + length (List.filter is_pending db))%nat
  /\ Forall2 processed_from db (process_loop clock n db).1
  /\ List.filter is_pending (process_loop clock n db).1 = [].
Proof.
  induction db as [|fb db IH]; intros n; simpl.
  - split; [lia|]. split; [constructor | done].
  - destruct (is_pending fb) eqn:E.
    + destruct (IH (S n)) as (Hn & Hall & Hnil).
      destruct (process_loop clock (S n) db) as [rest' m]. simpl in *.
      split; [lia|]. split.
      * constructor; [|done]. split; [done|]. split; [congruence|].
        intros _. simpl. eauto.
      * unfold is_pending at 1. simpl. by rewrite andb_false_r.
    + destruct (IH n) as (Hn & Hall & Hnil).
      destruct (process_loop clock n db) as [rest' m]. simpl in *.
      split; [lia|]. split.
      * constructor; [|done]. split; [done|]. split; [done|]. congruence.
      * by rewrite E.
Qed.

Lemma processPendingFeedback_run clock db :
  processPendingFeedback clock db
  = ({| r_processed := length (List.filter is_pending db);
        r_failed := 0;
        r_remaining := 0 |}, (process_loop clock 0 db).1).
Proof.
  unfold processPendingFeedback.
  destruct (process_loop_spec clock db 0) as (Hn & _ & Hnil).
  destruct (process_loop clock 0 db) as [db' n]. simpl in *.
  by rewrite Hn, Hnil.
Qed.

(** X21. The report of [processPendingFeedback]: [processed] is the
    number of completed entries not yet processed, and [failed] and
    [remaining] are always 0. *)
Theorem processPendingFeedback_report clock db :
  r_processed (processPendingFeedback clock db).1
    = length (List.filter is_pending db)
  /\ r_failed (processPendingFeedback clock db).1 = 0%nat
  /\ r_remaining (processPendingFeedback clock db).1 = 0%nat.
Proof. by rewrite processPendingFeedback_run. Qed.

(** X22. Processing is idempotent: a second run right after a first
    processes nothing and leaves every entry, its [processedAt] included,
    as the first run left it. *)
Theorem processPendingFeedback_idempotent clock clock' db :
  processPendingFeedback clock' (processPendingFeedback clock db).2
  = ({| r_processed := 0; r_failed := 0; r_remaining := 0 |},
     (processPendingFeedback clock db).2).
Proof.
  rewrite !processPendingFeedback_run. simpl.
  destruct (process_loop_spec clock db 0) as (_ & _ & Hnil).
  rewrite Hnil. simpl. f_equal.
  generalize dependent (process_loop clock 0 db).1. intros l Hl.
  generalize 0%nat.
  induction l as [|fb l IH]; intros n; [done|]. simpl in *.
  destruct (is_pending fb) eqn:E; [discriminate Hl|].
  specialize (IH Hl n). destruct (process_loop clock' n l) as [l' m].
  simpl in *. by rewrite IH.
Qed.

(** X23. Processing writes the two marks and nothing else: every entry
    keeps its record (status stays completed, it is never set to
    processed, and the responses stay), an entry that was not pending is
    unchanged, and a pending one gets [processed = true] and a time. So
    processed records still take part in every aggregate. *)
Theorem processPendingFeedback_keeps_records clock db :
  Forall2 processed_from db (processPendingFeedback clock db).2
  /\ map entry (processPendingFeedback clock db).2 = map entry db
  /\ forall this rid,
       getAggregatedFeedback rid
         (set_database (map entry (processPendingFeedback clock db).2) this)
       = getAggregatedFeedback rid (set_database (map entry db) this).
Proof.
  rewrite processPendingFeedback_run. simpl.
  destruct (process_loop_spec clock db 0) as (_ & Hall & _).
  assert (map entry (process_loop clock 0 db).1 = map entry db) as Hmap.
  { induction Hall as [|fb fb' l l' (He & _) _ IH]; [done|].
    simpl. by rewrite He, IH. }
  split; [done|]. split; [done|]. intros this rid. by rewrite Hmap.
Qed.

(** The sample database: one entry is processed, the scheduled one and
    the one processed before are left alone. *)
Example processPendingFeedback_sample :
  processPendingFeedback (fun i => 100 + Z.of_nat i)%Z tracked_1
  = ({| r_processed := 1; r_failed := 0; r_remaining := 0 |},
     [{| entry := record_1; processed := true; processedAt := Some 100%Z |};
      {| entry := record_2; processed := false; processedAt := None |};
      {| entry := record_3; processed := true; processedAt := Some 7%Z |}]).
Proof. vm_compute. reflexivity. Qed.

Lemma submit_route_run body now this :
  submit_route body now this
  = match b_feedbackId body, b_responses body with
    | Some id, Some answers =>
        if String.eqb id "" then (Ok (server_error "Invalid feedback data"), this)
        else
          match record_with_id id this with
          | Some _ =>
              (Ok {| http_status := 200; success := true;
                     message := Some "Feedback submitted successfully" |},
               (submitFeedback id answers now this).2)
          | None => (Ok (server_error "Failed to submit feedback"), this)
          end
    | _, _ => (Ok (server_error "Invalid feedback data"), this)
    end.
Proof.
  unfold submit_route, try_catch, throw.
  destruct (b_feedbackId body) as [id|], (b_responses body) as [answers|];
    try reflexivity.
  destruct (String.eqb id ""); [reflexivity|].
  unfold mbind, M_bind. rewrite submitFeedback_run.
  destruct (record_with_id id this); reflexivity.
Qed.

(** X24. [POST /api/feedback/submit] answers 200 exactly when the body
    has a non-empty [feedbackId], has [responses], and some record has
    that id; the submission is then stored as [submitFeedback] stores it.
    Every other request is answered 500 (also a missing field and an
    unknown id) with [success: false], and changes nothing. *)
Theorem submit_route_replies body now this :
  exists reply,
    (submit_route body now this).1 = Ok reply
    /\ (http_status reply = 200%nat \/ http_status reply = 500%nat)
    /\ (http_status reply = 200%nat
        <-> exists id answers,
              b_feedbackId body = Some id /\ id <> ""
              /\ b_responses body = Some answers
              /\ (exists fb, fb ∈ feedbackDatabase this /\ fb_id fb = id)
              /\ success reply = true
              /\ (submit_route body now this).2
                 = (submitFeedback id answers now this).2)
    /\ (http_status reply = 500%nat ->
        success reply = false /\ (submit_route body now this).2 = this).
Proof.
  rewrite submit_route_run.
  destruct (b_feedbackId body) as [id|] eqn:Eid,
           (b_responses body) as [answers|] eqn:Eans;
    try (eexists; split; [reflexivity|]; simpl;
         split; [by right|]; split; [|done];
         split; [discriminate | by intros (? & ? & [=] & _ & [=] & _)]).
  destruct (String.eqb_spec id "") as [->|Hne].
  - eexists. split; [reflexivity|]. simpl. split; [by right|]. split; [|done].
    split; [discriminate|]. by intros (? & ? & [= <-] & ? & _).
  - destruct (record_with_id id this) as [fb|] eqn:E.
    + eexists. split; [reflexivity|]. simpl. split; [by left|]. split; [|discriminate].
      split; [|done]. intros _.
      destruct (record_with_id_split _ _ _ E) as (l1 & l2 & Hdb & Hid & _).
      exists id, answers. repeat split; try done.
      exists fb. split; [|done]. rewrite Hdb. apply elem_of_app. right. left.
    + eexists. split; [reflexivity|]. simpl. split; [by right|]. split; [|done].
      split; [discriminate|].
      intros (id' & ? & [= <-] & _ & _ & (fb & Hin & Hid) & _).
      apply record_with_id_none in E. by destruct (E fb).
Qed.

(** X25. [GET /api/feedback/survey/:id] never answers 500 and never
    changes the instance: it answers 200 with the survey when
    [getFeedbackSurvey] returns one and 404 otherwise, an unknown id and a
    record whose template name is not a key of the templates alike. *)
Theorem survey_route_replies id this :
  (survey_route id this).2 = this
  /\ exists reply sv,
       (survey_route id this).1 = Ok (reply, sv)
       /\ (getFeedbackSurvey id this).1 = Ok sv
       /\ (http_status reply = 200%nat \/ http_status reply = 404%nat)
       /\ (http_status reply = 200%nat <-> is_Some sv)
       /\ (http_status reply = 404%nat <-> sv = None).
Proof.
  unfold survey_route, try_catch, mbind, M_bind.
  rewrite getFeedbackSurvey_run. simpl.
  destruct (record_with_id id this ≫= _) as [sv|]; simpl.
  - split; [done|]. do 2 eexists. split; [reflexivity|]. split; [done|].
    split; [by left|]. split; [split; eauto|]. split; discriminate.
  - split; [done|]. do 2 eexists. split; [reflexivity|]. split; [done|].
    split; [by right|]. split; [|done]. split; [discriminate | by intros [? [=]]].
Qed.

End Lifecycle_processing.

(** ** From responses to suggestions *)

Section Lifecycle_pipeline.

Import Lifecycle.

(** The suggestions as rows of the rule table. *)
Lemma generate_as_rules (a : AggregatedFeedback) :
  (0 < totalResponses a)%nat ->
  generateImprovementSuggestions (Some a)
  = R1 a ++ R2 a ++ R3 a ++ R4 a ++ R5a a ++ R5b a.
Proof.
  intros Hpos. unfold generateImprovementSuggestions.
  destruct (Nat.eqb_spec (totalResponses a) 0) as [E|_]; [lia|].
  cbv zeta.
  rewrite (level_test _ (Qltb (decisionsRate a) 0.2) (Qltb_lt _ _)).
  rewrite (level_test _ (Qltb (actionItemsRate a) 0.3) (Qltb_lt _ _)).
  rewrite (level_test _ (Qltb (averageParticipation a) 30) (Qltb_lt _ _)).
  rewrite (level_test _ (Qltb 0.8 (couldBeAsyncRate a)) (Qltb_lt _ _)).
  rewrite (push_rule _ (Qltb (decisionsRate a) 0.5) _ _ (Qltb_lt _ _)).
  rewrite (push_rule _ (Qltb (actionItemsRate a) 0.6) _ _ (Qltb_lt _ _)).
  rewrite (push_rule _ (Qltb (averageParticipation a) 50) _ _ (Qltb_lt _ _)).
  rewrite (push_rule _ (Qltb 0.6 (couldBeAsyncRate a)) _ _ (Qltb_lt _ _)).
  rewrite push_length.
  unfold R1, R2, R3, R4, R5a, R5b. simpl. by rewrite <- !app_assoc.
Qed.

Lemma level_high (P : Prop) `{!Decision P} : level P = "high" <-> P.
Proof. unfold level. destruct (decide P); split; try done. Qed.

Lemma level_values (P : Prop) `{!Decision P} :
  level P = "high" \/ level P = "medium".
Proof. unfold level. destruct (decide P); [by left | by right]. Qed.

(** X26. Whatever the argument, the suggestions come in the fixed order
    of areas Decision Making, Action Items, Participation, Meeting
    Format, Meeting Length, each area at most once (so at most five), and
    every priority is high or medium. *)
Theorem suggestions_shape (agg : option AggregatedFeedback) :
  map area (generateImprovementSuggestions agg) `sublist_of` all_areas
  /\ (length (generateImprovementSuggestions agg) <= 5)%nat
  /\ Forall (fun s => priority s = "high" \/ priority s = "medium")
        (generateImprovementSuggestions agg).
Proof.
  assert (forall l : list Suggestion,
            map area l `sublist_of` all_areas -> (length l <= 5)%nat) as Hlen.
  { intros l Hl. apply sublist_length in Hl. by rewrite length_map in Hl. }
  destruct agg as [a|]; [|split; [apply sublist_nil_l | split; [simpl; lia | constructor]]].
  destruct (Nat.eq_dec (totalResponses a) 0%nat) as [E|N].
  { unfold generateImprovementSuggestions. rewrite E. simpl.
    split; [apply sublist_nil_l | split; [simpl; lia | constructor]]. }
  rewrite generate_as_rules by lia.
  assert (map area (R1 a ++ R2 a ++ R3 a ++ R4 a ++ R5a a ++ R5b a)
            `sublist_of` all_areas) as Hsub.
  { unfold R1, R2, R3, R4, R5a, R5b, rule, all_areas.
    destruct (decide (decisionsRate a < 0.5)), (decide (actionItemsRate a < 0.6)),
             (decide (averageParticipation a < 50)), (decide (0.6 < couldBeAsyncRate a)),
             (decide (too_long a)), (decide (~ too_long a /\ too_short a)) as [[? ?]|];
      try done; simpl;
      repeat first [apply sublist_nil | apply sublist_skip | apply sublist_cons]. }
  split; [exact Hsub|]. split; [by apply Hlen|].
  unfold R1, R2, R3, R4, R5a, R5b, rule.
  repeat (apply Forall_app; split);
    (destruct (decide _); [|constructor]); (constructor; [|constructor]); simpl;
    first [apply level_values | by left | by right].
Qed.

Lemma has_suggestion_app x l1 l2 :
  has_suggestion x (l1 ++ l2) <-> has_suggestion x l1 \/ has_suggestion x l2.
Proof.
  unfold has_suggestion. split.
  - intros (s & [H|H]%elem_of_app & Ha); eauto.
  - intros [(s & H & Ha)|(s & H & Ha)]; exists s; rewrite elem_of_app; eauto.
Qed.

Lemma has_high_app x l1 l2 :
  has_high x (l1 ++ l2) <-> has_high x l1 \/ has_high x l2.
Proof.
  unfold has_high. split.
  - intros (s & [H|H]%elem_of_app & Ha); eauto.
  - intros [(s & H & Ha)|(s & H & Ha)]; exists s; rewrite elem_of_app; eauto.
Qed.

Lemma has_suggestion_rule x (P : Prop) `{!Decision P} s :
  has_suggestion x (rule P s) <-> P /\ area s = x.
Proof.
  unfold has_suggestion, rule. destruct (decide P) as [p|n]; split.
  - intros (s' & ->%list_elem_of_singleton & Ha). done.
  - intros [_ Ha]. exists s. split; [left | done].
  - intros (s' & H%elem_of_nil & _). done.
  - intros [p _]. done.
Qed.

Lemma has_high_rule x (P : Prop) `{!Decision P} s :
  has_high x (rule P s) <-> P /\ area s = x /\ priority s = "high".
Proof.
  unfold has_high, rule. destruct (decide P) as [p|n]; split.
  - intros (s' & ->%list_elem_of_singleton & Ha). done.
  - intros [_ Ha]. exists s. split; [left | done].
  - intros (s' & H%elem_of_nil & _). done.
  - intros [p _]. done.
Qed.

Lemma or_iff (A B C D : Prop) : (A <-> B) -> (C <-> D) -> (A \/ C <-> B \/ D).
Proof. tauto. Qed.

Lemma has_suggestion_table a x :
  has_suggestion x (R1 a ++ R2 a ++ R3 a ++ R4 a ++ R5a a ++ R5b a)
  <-> (decisionsRate a < 0.5 /\ "Decision Making" = x)
      \/ (actionItemsRate a < 0.6 /\ "Action Items" = x)
      \/ (averageParticipation a < 50 /\ "Participation" = x)
      \/ (0.6 < couldBeAsyncRate a /\ "Meeting Format" = x)
      \/ (too_long a /\ "Meeting Length" = x)
      \/ ((~ too_long a /\ too_short a) /\ "Meeting Length" = x).
Proof.
  unfold R1, R2, R3, R4, R5a, R5b.
  repeat (etransitivity; [apply has_suggestion_app|];
          apply or_iff; [apply has_suggestion_rule|]).
  apply has_suggestion_rule.
Qed.

Lemma has_high_table a x :
  has_high x (R1 a ++ R2 a ++ R3 a ++ R4 a ++ R5a a ++ R5b a)
  <-> (decisionsRate a < 0.5 /\ "Decision Making" = x
       /\ level (decisionsRate a < 0.2) = "high")
      \/ (actionItemsRate a < 0.6 /\ "Action Items" = x
          /\ level (actionItemsRate a < 0.3) = "high")
      \/ (averageParticipation a < 50 /\ "Participation" = x
          /\ level (averageParticipation a < 30) = "high")
      \/ (0.6 < couldBeAsyncRate a /\ "Meeting Format" = x
          /\ level (0.8 < couldBeAsyncRate a) = "high")
      \/ (too_long a /\ "Meeting Length" = x /\ "high" = "high")
      \/ ((~ too_long a /\ too_short a) /\ "Meeting Length" = x
          /\ "medium" = "high").
Proof.
  unfold R1, R2, R3, R4, R5a, R5b.
  repeat (etransitivity; [apply has_high_app|];
          apply or_iff; [apply has_high_rule|]).
  apply has_high_rule.
Qed.

(** A rate against a threshold, without the division. *)
Lemma rate_lt c n p :
  (0 < n)%nat -> Qnat c / Qnat n < p <-> Qnat c < p * Qnat n.
Proof.
  intros Hn. pose proof (Qnat_pos n Hn) as Hp.
  rewrite <- (Qmult_lt_r (Qnat c / Qnat n) p (Qnat n)) by done.
  assert (Qnat c / Qnat n * Qnat n == Qnat c) as -> by (field; lra).
  reflexivity.
Qed.

Lemma rate_gt c n p :
  (0 < n)%nat -> p < Qnat c / Qnat n <-> p * Qnat n < Qnat c.
Proof.
  intros Hn. pose proof (Qnat_pos n Hn) as Hp.
  rewrite <- (Qmult_lt_r p (Qnat c / Qnat n) (Qnat n)) by done.
  assert (Qnat c / Qnat n * Qnat n == Qnat c) as -> by (field; lra).
  reflexivity.
Qed.

Lemma Qnat_lt_scaled (c n : nat) (a b : positive) :
  Qnat c < (Z.pos a # b) * Qnat n <-> (Pos.to_nat b * c < Pos.to_nat a * n)%nat.
Proof. unfold Qlt, Qnat. simpl. lia. Qed.

Lemma Qnat_gt_scaled (c n : nat) (a b : positive) :
  (Z.pos a # b) * Qnat n < Qnat c <-> (Pos.to_nat a * n < Pos.to_nat b * c)%nat.
Proof. unfold Qlt, Qnat. simpl. lia. Qed.

(** The aggregate of a series that has considered records, field by
    field. *)
Lemma aggregate_some this rid :
  let rs := all_responses (filter (considered rid) (feedbackDatabase this)) in
  filter (considered rid) (feedbackDatabase this) <> [] ->
  exists a,
    (getAggregatedFeedback rid this).1 = Ok (Some a)
    /\ totalResponses a = length rs
    /\ (0 < length rs)%nat
    /\ decisionsRate a = Qnat (count_truthy decision_made rs) / Qnat (length rs)
    /\ actionItemsRate a = Qnat (count_truthy action_items rs) / Qnat (length rs)
    /\ couldBeAsyncRate a = Qnat (count_truthy could_be_async rs) / Qnat (length rs)
    /\ averageParticipation a == Qsum (supplied_participation rs) / Qnat (length rs)
    /\ lengthRatings a !! "Too short" = Some (Count (count_option "Too short" rs))
    /\ lengthRatings a !! "Too long" = Some (Count (count_option "Too long" rs)).
Proof.
  intros rs Hne. rewrite getAggregatedFeedback_run. simpl.
  destruct (filter (considered rid) (feedbackDatabase this))
    as [|first rest] eqn:E; [done|].
  pose proof (considered_total_pos _ _ _ _ E) as Hpos. fold rs in Hpos.
  assert (l_totalResponses (fold_left process_response rs initial_loop) = length rs)
    as Htot by (rewrite loop_total; reflexivity).
  rewrite aggregate_items_cons by (fold rs; rewrite Htot; exact Hpos).
  fold rs. eexists. split; [reflexivity|]. simpl.
  rewrite Htot, loop_decisions, loop_actions, loop_async. simpl.
  pose proof (loop_participation rs initial_loop) as Hsum. simpl in Hsum.
  repeat split; try done.
  - rewrite Hsum. pose proof (Qnat_pos _ Hpos). field. lra.
  - by rewrite (loop_bucket "Too short" rs initial_loop 0).
  - by rewrite (loop_bucket "Too long" rs initial_loop 0).
Qed.

(** X27. From responses to suggestions, in whole numbers. For a series
    with [n] counted responses: Decision Making is suggested exactly when
    fewer than half report a decision (high: fewer than a fifth); Action
    Items when fewer than three in five report action items (high: fewer
    than three in ten); Meeting Format when more than three in five say
    the meeting could be asynchronous (high: more than four in five);
    Meeting Length when more than half chose Too long or more than half
    chose Too short (high: Too long). (The Participation rule compares a
    rounded sum and is not among these.) *)
Theorem suggestions_from_counts this rid :
  let rs := all_responses (filter (considered rid) (feedbackDatabase this)) in
  let n := length rs in
  filter (considered rid) (feedbackDatabase this) <> [] ->
  exists a,
    (getAggregatedFeedback rid this).1 = Ok (Some a)
    /\ let sg := generateImprovementSuggestions (Some a) in
       (has_suggestion "Decision Making" sg
        <-> (2 * count_truthy decision_made rs < n)%nat)
       /\ (has_high "Decision Making" sg
           <-> (5 * count_truthy decision_made rs < n)%nat)
       /\ (has_suggestion "Action Items" sg
           <-> (5 * count_truthy action_items rs < 3 * n)%nat)
       /\ (has_high "Action Items" sg
           <-> (10 * count_truthy action_items rs < 3 * n)%nat)
       /\ (has_suggestion "Meeting Format" sg
           <-> (3 * n < 5 * count_truthy could_be_async rs)%nat)
       /\ (has_high "Meeting Format" sg
           <-> (4 * n < 5 * count_truthy could_be_async rs)%nat)
       /\ (has_suggestion "Meeting Length" sg
           <-> (n < 2 * count_option "Too long" rs)%nat
               \/ (n < 2 * count_option "Too short" rs)%nat)
       /\ (has_high "Meeting Length" sg
           <-> (n < 2 * count_option "Too long" rs)%nat).
Proof.
  intros rs n Hne.
  destruct (aggregate_some this rid Hne)
    as (a & Hrun & Htot & Hpos & Hd & Ha & Hc & Hp & Hts & Htl).
  fold rs in Htot, Hpos, Hd, Ha, Hc, Hp, Hts, Htl. fold n in Htot, Hpos, Hd, Ha, Hc, Hp.
  exists a. split; [exact Hrun|]. intros sg. subst sg.
  rewrite generate_as_rules by lia.
  assert (decisionsRate a < 0.5 <-> (2 * count_truthy decision_made rs < n)%nat) as T1.
  { rewrite Hd, rate_lt by done. change 0.5 with (5 # 10). rewrite Qnat_lt_scaled. lia. }
  assert (decisionsRate a < 0.2 <-> (5 * count_truthy decision_made rs < n)%nat) as T1h.
  { rewrite Hd, rate_lt by done. change 0.2 with (2 # 10). rewrite Qnat_lt_scaled. lia. }
  assert (actionItemsRate a < 0.6 <-> (5 * count_truthy action_items rs < 3 * n)%nat) as T2.
  { rewrite Ha, rate_lt by done. change 0.6 with (6 # 10). rewrite Qnat_lt_scaled. lia. }
  assert (actionItemsRate a < 0.3 <-> (10 * count_truthy action_items rs < 3 * n)%nat) as T2h.
  { rewrite Ha, rate_lt by done. change 0.3 with (3 # 10). rewrite Qnat_lt_scaled. lia. }
  assert (0.6 < couldBeAsyncRate a <-> (3 * n < 5 * count_truthy could_be_async rs)%nat) as T4.
  { rewrite Hc, rate_gt by done. change 0.6 with (6 # 10). rewrite Qnat_gt_scaled. lia. }
  assert (0.8 < couldBeAsyncRate a <-> (4 * n < 5 * count_truthy could_be_async rs)%nat) as T4h.
  { rewrite Hc, rate_gt by done. change 0.8 with (8 # 10). rewrite Qnat_gt_scaled. lia. }
  assert (too_long a <-> (n < 2 * count_option "Too long" rs)%nat) as T5.
  { unfold too_long. rewrite Htl, Htot. simpl.
    rewrite Qmult_comm. change 0.5 with (5 # 10). rewrite Qnat_gt_scaled. lia. }
  assert (too_short a <-> (n < 2 * count_option "Too short" rs)%nat) as T6.
  { unfold too_short. rewrite Hts, Htot. simpl.
    rewrite Qmult_comm. change 0.5 with (5 # 10). rewrite Qnat_gt_scaled. lia. }
  pose proof (level_high (decisionsRate a < 0.2)) as L1.
  pose proof (level_high (actionItemsRate a < 0.3)) as L2.
  pose proof (level_high (0.8 < couldBeAsyncRate a)) as L4.
  destruct (decide (too_long a)) as [Hlong|Hlong].
  all: repeat split; intros H;
    first [apply has_suggestion_table in H | apply has_suggestion_table
          | apply has_high_table in H | apply has_high_table].
  all: intuition (try discriminate; try done; try lra).
Qed.

Lemma suggestions_from_counts_witness :
  exists a,
    (getAggregatedFeedback "rec-123" collection_1).1 = Ok (Some a)
    /\ (has_suggestion "Decision Making" (generateImprovementSuggestions (Some a))
        <-> (2 * 1 < 2)%nat).
Proof.
  destruct (suggestions_from_counts collection_1 "rec-123") as (a & Ha & H1 & _).
  - vm_compute. discriminate.
  - exists a. split; [exact Ha | exact H1].
Defined.

Lemma rule_fires (P : Prop) `{!Decision P} s : P -> rule P s = [s].
Proof. intros p. unfold rule. by rewrite decide_True. Qed.

Lemma level_fires (P : Prop) `{!Decision P} : P -> level P = "high".
Proof. intros p. unfold level. by rewrite decide_True. Qed.

Lemma count_truthy_none f rs :
  (forall r, r ∈ rs -> truthy_bool (f (data r)) = false) -> count_truthy f rs = 0%nat.
Proof.
  induction rs as [|r rs IH]; intros H; [reflexivity|].
  rewrite count_truthy_cons, (H r) by left.
  apply IH. intros r' Hr'. apply H. by right.
Qed.

Lemma supplied_participation_none rs :
  (forall r, r ∈ rs -> participation (data r) = None) ->
  supplied_participation rs = [].
Proof.
  induction rs as [|r rs IH]; intros H; [reflexivity|].
  unfold supplied_participation. simpl. rewrite (H r) by left.
  apply IH. intros r' Hr'. apply H. by right.
Qed.

(** X28. A series answered only through surveys that ask none of
    decision_made, action_items and participation (the brief template is
    one) always gets the suggestions Decision Making, Action Items and
    Participation, each with priority high, at the head of the list:
    unanswered questions count as no. *)
Theorem unasked_questions_suggest_high this rid :
  let rs := all_responses (filter (considered rid) (feedbackDatabase this)) in
  filter (considered rid) (feedbackDatabase this) <> [] ->
  (forall r, r ∈ rs ->
     decision_made (data r) = None /\ action_items (data r) = None
     /\ participation (data r) = None) ->
  exists a,
    (getAggregatedFeedback rid this).1 = Ok (Some a)
    /\ take 3 (map (fun s => (area s, priority s))
                 (generateImprovementSuggestions (Some a)))
       = [("Decision Making", "high"); ("Action Items", "high");
          ("Participation", "high")].
Proof.
  intros rs Hne Hnone.
  destruct (aggregate_some this rid Hne)
    as (a & Hrun & Htot & Hpos & Hd & Ha & _ & Hp & _).
  fold rs in Htot, Hpos, Hd, Ha, Hp.
  exists a. split; [exact Hrun|].
  rewrite generate_as_rules by lia.
  rewrite count_truthy_none in Hd by (intros r Hr; by rewrite (proj1 (Hnone r Hr))).
  rewrite count_truthy_none in Ha
    by (intros r Hr; by rewrite (proj1 (proj2 (Hnone r Hr)))).
  rewrite supplied_participation_none in Hp by (intros r Hr; apply (Hnone r Hr)).
  pose proof (Qnat_pos _ Hpos) as Hq.
  assert (Qnat 0 / Qnat (length rs) == 0) as Hzero
    by (change (Qnat 0) with 0; field; lra).
  assert (Qsum [] / Qnat (length rs) == 0) as Hzero'
    by (change (Qsum []) with 0; field; lra).
  assert (decisionsRate a < 0.2) as D by (rewrite Hd, Hzero; reflexivity).
  assert (actionItemsRate a < 0.3) as A by (rewrite Ha, Hzero; reflexivity).
  assert (averageParticipation a < 30) as P by (rewrite Hp, Hzero'; reflexivity).
  unfold R1, R2, R3.
  rewrite (rule_fires (decisionsRate a < 0.5)) by lra.
  rewrite (rule_fires (actionItemsRate a < 0.6)) by lra.
  rewrite (rule_fires (averageParticipation a < 50)) by lra.
  simpl. by rewrite !level_fires.
Qed.

Lemma unasked_questions_suggest_high_witness :
  exists a,
    (getAggregatedFeedback "rec-789"
       (set_database
          [{| fb_id := "fb-9";
              meetingId := Obj [("recurringMeetingId", Str "rec-789")];
              meetingTitle := Str "Standup";
              scheduledTime := Num 0;
              template := "brief";
              status := "completed";
              responses := [{| timestamp := 1; data := brief_answers true |};
                            {| timestamp := 2; data := brief_answers false |}] |}]
          collection_0)).1 = Ok (Some a)
    /\ take 3 (map (fun s => (area s, priority s))
                 (generateImprovementSuggestions (Some a)))
       = [("Decision Making", "high"); ("Action Items", "high");
          ("Participation", "high")].
Proof.
  apply unasked_questions_suggest_high.
  - vm_compute. discriminate.
  - intros r Hr. vm_compute in Hr.
    apply elem_of_cons in Hr as [->|Hr]; [done|].
    apply elem_of_cons in Hr as [->|Hr]; [done|].
    by apply elem_of_nil in Hr.
Defined.

End Lifecycle_pipeline.
